(** * code_analyzer_agent.py: a shallow embedding and its verified properties

    The program is one Python script: a process-wide [file_cache], two tools
    ([fetch_github_file], [analyze_code_quality]), a dispatcher
    ([process_tool_call]) and a bounded tool-calling loop ([run_agent]).

    Conventions of the embedding.
    - A Python [str] is a Rocq [string]; every [ascii] stands for one character
      (a code point below 256), so [len] is [String.length].
    - The dictionary [file_cache] is a [gmap string string].
    - A dict literal returned by a tool is a [PDict]: an association list in
      insertion order, which is the order [json.dumps] prints.
    - The services the script calls but does not define ([requests.get], the
      chat-completion client, [json.loads]) are the fields of the class
      [Environment]; the first two thread an abstract [World].
    - Effects are explicit: a computation maps a [state] to a [result] and a
      [state].  An exception that the script does not catch is [Raise].
    - The [trace] component of the state is instrumentation: it records each
      call that leaves the script and each tool body that is entered. *)

From stdpp Require Import gmap strings list pretty.
From Stdlib Require Import ZArith Ascii String.

Open Scope string_scope.

(** ** Python string operations used by the script *)

Module PyStr.

(** [len(s)] *)
Definition len (s : string) : Z := Z.of_nat (String.length s).

(** [str.isspace] on one character, for code points below 256:
    U+0009..U+000D, U+001C..U+001F, U+0020, U+0085 and U+00A0. *)
Definition is_space (c : ascii) : bool :=
  let n := nat_of_ascii c in
  (((9 <=? n) && (n <=? 13)) || ((28 <=? n) && (n <=? 32))
   || (n =? 133) || (n =? 160))%nat.

Fixpoint lstrip (s : string) : string :=
  match s with
  | EmptyString => EmptyString
  | String c s' => if is_space c then lstrip s' else s
  end.

Fixpoint rstrip (s : string) : string :=
  match s with
  | EmptyString => EmptyString
  | String c s' =>
      match rstrip s' with
      | EmptyString => if is_space c then EmptyString else String c EmptyString
      | r => String c r
      end
  end.

(** [s.strip()] *)
Definition strip (s : string) : string := lstrip (rstrip s).

(** [s.startswith(p)] *)
Fixpoint startswith (p s : string) : bool :=
  match p, s with
  | EmptyString, _ => true
  | String _ _, EmptyString => false
  | String a p', String b s' => Ascii.eqb a b && startswith p' s'
  end.

(** [s.startswith((p1, ..., pn))]: true when some element of the tuple is a
    prefix. *)
Definition startswith_any (ps : list string) (s : string) : bool :=
  existsb (fun p => startswith p s) ps.

(** [s.split(sep)] for a separator of one character: the result is never
    empty, and a separator at either end yields an empty piece there. *)
Fixpoint split (sep : ascii) (s : string) : list string :=
  match s with
  | EmptyString => [EmptyString]
  | String c s' =>
      if Ascii.eqb c sep then EmptyString :: split sep s'
      else match split sep s' with
           | piece :: pieces => String c piece :: pieces
           | [] => [String c EmptyString]
           end
  end.

(** The scan behind [s.count(sub)] for a non-empty [sub]: left to right, and a
    match consumes [len(sub)] characters, so counted matches never overlap.
    [skip] is the number of characters of the last match still to consume. *)
Fixpoint count_scan (sub : string) (skip : nat) (s : string) : nat :=
  match s with
  | EmptyString => 0
  | String _ s' =>
      match skip with
      | S k => count_scan sub k s'
      | O => if startswith sub s
             then S (count_scan sub (String.length sub - 1) s')
             else count_scan sub 0 s'
      end
  end.

(** [s.count(sub)]; the empty [sub] matches between any two characters. *)
Definition count (sub s : string) : Z :=
  match sub with
  | EmptyString => Z.of_nat (String.length s) + 1
  | _ => Z.of_nat (count_scan sub 0 s)
  end.

End PyStr.

(** ** Python values that reach [json.dumps] *)

#[local] Set Warnings "-register-all".

Inductive pyval : Type :=
| PNone
| PBool (b : bool)
| PInt (n : Z)
| PStr (s : string)
| PDict (items : list (string * pyval)).

Module Json.

Definition quote : ascii := ascii_of_nat 34.
Definition backslash : ascii := ascii_of_nat 92.

Definition hex_digit (n : nat) : ascii :=
  if (n <? 10)%nat then ascii_of_nat (48 + n) else ascii_of_nat (87 + n).

(** The replacement [json.encoder] makes for one character when
    [ensure_ascii] is on: the short escapes, and [\u00xx] for every other
    character outside the printable ASCII range. *)
Definition escape_char (c : ascii) : string :=
  let n := nat_of_ascii c in
  if (n =? 34)%nat then String backslash (String quote EmptyString)
  else if (n =? 92)%nat then String backslash (String backslash EmptyString)
  else if (n =? 10)%nat then String backslash "n"
  else if (n =? 13)%nat then String backslash "r"
  else if (n =? 9)%nat then String backslash "t"
  else if (n =? 8)%nat then String backslash "b"
  else if (n =? 12)%nat then String backslash "f"
  else if ((32 <=? n) && (n <=? 126))%nat then String c EmptyString
  else String backslash
         ("u00" ++ String (hex_digit (n / 16))
                     (String (hex_digit (n mod 16)) EmptyString)).

Fixpoint escape (s : string) : string :=
  match s with
  | EmptyString => EmptyString
  | String c s' => escape_char c ++ escape s'
  end.

(** [py_encode_basestring_ascii] *)
Definition encode_basestring_ascii (s : string) : string :=
  String quote (escape s ++ String quote EmptyString).

(** [json.dumps(v)] with the default separators [", "] and [": "]. *)
Fixpoint dumps (v : pyval) : string :=
  match v with
  | PNone => "null"
  | PBool true => "true"
  | PBool false => "false"
  | PInt n => pretty n
  | PStr s => encode_basestring_ascii s
  | PDict items =>
      let fix members (kvs : list (string * pyval)) : string :=
        match kvs with
        | [] => EmptyString
        | (k, x) :: rest =>
            encode_basestring_ascii k ++ ": " ++ dumps x
            ++ match rest with
               | [] => EmptyString
               | _ :: _ => ", " ++ members rest
               end
        end in
      "{" ++ members items ++ "}"
  end.

End Json.

(** ** The conversation transcript *)

(** One element of a [tool_calls] list in the model's reply: [tool_call.id],
    [tool_call.function.name] and [tool_call.function.arguments] (the
    arguments still serialised, as the model wrote them). *)
Record tool_call : Type := ToolCall {
  call_id : string;
  function_name : string;
  function_arguments : string
}.

(** [response.choices[0].message]: both attributes may be [None]. *)
Record assistant_message : Type := AssistantMessage {
  content : option string;
  tool_calls : option (list tool_call)
}.

(** The dict the loop writes into an assistant entry of the transcript:
    [{"id": .., "type": .., "function": {"name": .., "arguments": ..}}]. *)
Record tool_call_entry : Type := ToolCallEntry {
  entry_id : string;
  entry_type : string;
  entry_name : string;
  entry_arguments : string
}.

(** The three shapes of dict that [run_agent] puts into [messages]. *)
Inductive message : Type :=
| TextMessage (role text : string)
    (* {"role": role, "content": text} *)
| AssistantCalls (text : string) (calls : list tool_call_entry)
    (* {"role": "assistant", "content": text, "tool_calls": calls} *)
| ToolMessage (tool_call_id text : string).
    (* {"role": "tool", "tool_call_id": .., "content": text} *)

Definition role_of (m : message) : string :=
  match m with
  | TextMessage r _ => r
  | AssistantCalls _ _ => "assistant"
  | ToolMessage _ _ => "tool"
  end.

(** ** The services outside the script *)

Record http_response : Type := HttpResponse {
  status_code : Z;
  text : string
}.

(** What [requests.get(url)] does: it raises, or it returns a response. *)
Inductive http_result : Type :=
| HttpRaises
| HttpReturns (r : http_response).

(** What [client.chat.completions.create(..)] followed by
    [.choices[0].message] does: it raises, or it yields the message. *)
Inductive chat_result : Type :=
| ChatRaises
| ChatReturns (m : assistant_message).

(** What [json.loads(text)] does.  A decoded JSON object is a dict with string
    keys; the tool schema sent to the model declares every argument a string,
    and the embedding takes the values of a decoded object to be strings.
    Every other decoded value (a list, a number, a string, ..) is [NotADict]. *)
Inductive loads_result : Type :=
| DecodeError
| NotADict
| Dict (d : gmap string string).

Class Environment (World : Type) : Type := {
  requests_get : string -> World -> http_result * World;
  chat_completions_create : list message -> World -> chat_result * World;
  json_loads : string -> loads_result
}.

(** ** Events, states and computations *)

Inductive event : Type :=
| ModelCall (messages : list message) (reply : chat_result)
| HttpGet (url : string) (reply : http_result)
| ToolRun (name : string) (args : list string).

Inductive exn : Type :=
| RequestException
| APIError
| JSONDecodeError
| TypeError.

Inductive result (A : Type) : Type :=
| Ok (a : A)
| Raise (e : exn).

Arguments Ok {A} a.
Arguments Raise {A} e.

Record state (World : Type) : Type := State {
  file_cache : gmap string string;
  world : World;
  trace : list event
}.

Arguments State {World} _ _ _.
Arguments file_cache {World} _.
Arguments world {World} _.
Arguments trace {World} _.

Definition M (World A : Type) : Type := state World -> result A * state World.

Definition ret {World A : Type} (a : A) : M World A := fun st => (Ok a, st).

Definition bind {World A B : Type} (m : M World A) (k : A -> M World B)
  : M World B :=
  fun st =>
    match m st with
    | (Ok a, st') => k a st'
    | (Raise e, st') => (Raise e, st')
    end.

Definition raise {World A : Type} (e : exn) : M World A :=
  fun st => (Raise e, st).

Notation "x <- m ;; k" := (bind m (fun x => k))
  (at level 100, m at next level, right associativity).
Notation "m ;;; k" := (bind m (fun _ => k))
  (at level 100, right associativity).

(** What one pass through the body of the [while] loop decides. *)
Inductive loop_control : Type :=
| Return (final_response : option string)
| Continue (messages : list message).

Definition max_iterations : nat := 10.

(** ** The script *)

Section Script.

Context {World : Type} {env : Environment World}.

Local Abbreviation M := (M World).

Definition log (e : event) : M unit :=
  fun st => (Ok tt, State (file_cache st) (world st) (trace st ++ [e])%list).

(** [requests.get(url)] *)
Definition http_get (url : string) : M http_response :=
  fun st =>
    let (reply, w) := requests_get url (world st) in
    let st' := State (file_cache st) w (trace st ++ [HttpGet url reply])%list in
    match reply with
    | HttpRaises => (Raise RequestException, st')
    | HttpReturns r => (Ok r, st')
    end.

(** [client.chat.completions.create(..).choices[0].message] *)
Definition chat (messages : list message) : M assistant_message :=
  fun st =>
    let (reply, w) := chat_completions_create messages (world st) in
    let st' := State (file_cache st) w (trace st ++ [ModelCall messages reply])%list in
    match reply with
    | ChatRaises => (Raise APIError, st')
    | ChatReturns m => (Ok m, st')
    end.

(** [json.loads(text)] *)
Definition loads (text : string) : M loads_result :=
  match json_loads text with
  | DecodeError => raise JSONDecodeError
  | v => ret v
  end.

(** [file_cache[file_path] = text] *)
Definition cache_store (file_path text : string) : M unit :=
  fun st => (Ok tt, State (<[file_path := text]> (file_cache st)) (world st) (trace st)).

(** A read of the global [file_cache]. *)
Definition cache_read : M (gmap string string) :=
  fun st => (Ok (file_cache st), st).

Definition branch_url (owner repo branch file_path : string) : string :=
  "https://raw.githubusercontent.com/" ++ owner ++ "/" ++ repo ++ "/"
  ++ branch ++ "/" ++ file_path.

Definition fetch_success (file_path body : string) : pyval :=
  PDict [("success", PBool true); ("file_path", PStr file_path);
         ("size", PInt (PyStr.len body))].

Definition fetch_failure : pyval :=
  PDict [("success", PBool false); ("error", PStr "File not found")].

Definition fetch_github_file (owner repo file_path : string) : M pyval :=
  log (ToolRun "fetch_github_file" [owner; repo; file_path]) ;;;
  response <- http_get (branch_url owner repo "main" file_path) ;;
  if (status_code response =? 200)%Z then
    cache_store file_path (text response) ;;;
    ret (fetch_success file_path (text response))
  else
    response <- http_get (branch_url owner repo "master" file_path) ;;
    if (status_code response =? 200)%Z then
      cache_store file_path (text response) ;;;
      ret (fetch_success file_path (text response))
    else ret fetch_failure.

Definition newline : ascii := ascii_of_nat 10.

Definition comment_prefixes : list string := ["//"; "#"; "/*"; "*"].

(** The filter of the list comprehension: [l.strip()] is not empty and does
    not start with an element of [comment_prefixes]. *)
Definition is_code_line (l : string) : bool :=
  negb (String.eqb (PyStr.strip l) EmptyString)
  && negb (PyStr.startswith_any comment_prefixes (PyStr.strip l)).

Definition not_fetched : pyval :=
  PDict [("error", PStr "File not fetched yet. Call fetch_github_file first.")].

Definition metrics (file_path : string) (total_lines code_lines function_count : Z)
  : pyval :=
  PDict [("file_path", PStr file_path);
         ("total_lines", PInt total_lines);
         ("code_lines", PInt code_lines);
         ("estimated_functions", PInt function_count);
         ("note", PStr "Metrics calculated from cached file.")].

Definition analyze_code_quality (file_path : string) : M pyval :=
  log (ToolRun "analyze_code_quality" [file_path]) ;;;
  cache <- cache_read ;;
  match cache !! file_path with
  | None => ret not_fetched
  | Some code =>
      let lines := PyStr.split newline code in
      let total_lines := Z.of_nat (List.length lines) in
      let code_lines := Z.of_nat (List.length (List.filter is_code_line lines)) in
      let function_count :=
        (PyStr.count "function " code + PyStr.count "def " code
         + PyStr.count "const " code + PyStr.count "let " code)%Z in
      ret (metrics file_path total_lines code_lines function_count)
  end.

(** [fetch_github_file] called with [tool_input] unpacked into keyword
    arguments: the call binds the keys of the dict to the three parameters and
    raises [TypeError] when the value is no mapping, a parameter has no key,
    or a key names no parameter. *)
Definition call_fetch_github_file (tool_input : loads_result) : M pyval :=
  match tool_input with
  | Dict d =>
      match d !! "owner", d !! "repo", d !! "file_path" with
      | Some owner, Some repo, Some file_path =>
          if (size d =? 3)%nat then fetch_github_file owner repo file_path
          else raise TypeError
      | _, _, _ => raise TypeError
      end
  | _ => raise TypeError
  end.

(** [analyze_code_quality] called with [tool_input] unpacked likewise. *)
Definition call_analyze_code_quality (tool_input : loads_result) : M pyval :=
  match tool_input with
  | Dict d =>
      match d !! "file_path" with
      | Some file_path =>
          if (size d =? 1)%nat then analyze_code_quality file_path
          else raise TypeError
      | None => raise TypeError
      end
  | _ => raise TypeError
  end.

(** A function that falls off its end returns [None]. *)
Definition process_tool_call (tool_name : string) (tool_input : loads_result)
  : M pyval :=
  if String.eqb tool_name "fetch_github_file" then
    call_fetch_github_file tool_input
  else if String.eqb tool_name "analyze_code_quality" then
    call_analyze_code_quality tool_input
  else ret PNone.

Definition system_prompt : string :=
  "You are a code quality analysis agent. Use the tools to fetch and analyze code from GitHub repositories. Call one tool at a time.".

Definition initial_messages (user_message : string) : list message :=
  [TextMessage "user" user_message; TextMessage "system" system_prompt].

Definition entry_of (c : tool_call) : tool_call_entry :=
  ToolCallEntry (call_id c) "function" (function_name c) (function_arguments c).

(** The part of the loop body after the model has answered: the [if] on
    [assistant_message.tool_calls], which is false for [None] and for [[]]. *)
Definition handle_reply (assistant : assistant_message) (messages : list message)
  : M loop_control :=
  match tool_calls assistant with
  | Some (tool_call :: _) =>
      let tool_name := function_name tool_call in
      tool_args <- loads (function_arguments tool_call) ;;
      result <- process_tool_call tool_name tool_args ;;
      let messages :=
        (messages ++ [AssistantCalls EmptyString [entry_of tool_call]])%list in
      let messages :=
        (messages ++ [ToolMessage (call_id tool_call) (Json.dumps result)])%list in
      ret (Continue messages)
  | _ => ret (Return (content assistant))
  end.

(** One pass through the body of the [while] loop. *)
Definition iteration_body (messages : list message) : M loop_control :=
  assistant <- chat messages ;;
  handle_reply assistant messages.

(** The [while iteration < max_iterations] loop.  [fuel] bounds the number of
    passes of the recursion; [None] means the fuel ran out before the loop
    ended. *)
Fixpoint agent_loop (fuel iteration : nat) (messages : list message)
  (st : state World) : option (result (option string) * state World) :=
  if (iteration <? max_iterations)%nat then
    match fuel with
    | O => None
    | S fuel' =>
        let iteration := S iteration in
        match iteration_body messages st with
        | (Ok (Return final_response), st') => Some (Ok final_response, st')
        | (Ok (Continue messages'), st') => agent_loop fuel' iteration messages' st'
        | (Raise e, st') => Some (Raise e, st')
        end
    end
  else Some (Ok (Some "Max iterations reached"), st).

Definition run_agent (user_message : string) (st : state World)
  : option (result (option string) * state World) :=
  agent_loop max_iterations 0 (initial_messages user_message) st.

End Script.

(** ** The tool schema sent to the model *)

(** One entry of a ["properties"] dict: the key, and the ["type"] and
    ["description"] of its value. *)
Record parameter_schema : Type := ParameterSchema {
  parameter_name : string;
  parameter_type : string;
  parameter_description : string
}.

(** One element of the list [tools]:
    [{"type": .., "function": {"name": .., "description": ..,
      "parameters": {"type": .., "properties": .., "required": ..}}}]. *)
Record tool_schema : Type := ToolSchema {
  schema_type : string;
  schema_name : string;
  schema_description : string;
  parameters_type : string;
  properties : list parameter_schema;
  required : list string
}.

Definition tools : list tool_schema :=
  [ToolSchema "function" "analyze_code_quality"
     "Analyzes code that was already fetched and returns metrics."
     "object"
     [ParameterSchema "file_path" "string"
        "Path of the file to analyze (must have been fetched first)"]
     ["file_path"];
   ToolSchema "function" "fetch_github_file"
     "Fetches a file from a GitHub repository. Provide owner, repo name, and file path."
     "object"
     [ParameterSchema "owner" "string" "GitHub username or org";
      ParameterSchema "repo" "string" "Repository name";
      ParameterSchema "file_path" "string" "Path to file in repo"]
     ["owner"; "repo"; "file_path"]].

(** ** Reading the trace *)

(** The events that [st'] has and [st] had not yet. *)
Definition events_since {World : Type} (st st' : state World) : list event :=
  drop (List.length (trace st)) (trace st').

Definition is_tool_run (e : event) : bool :=
  match e with ToolRun _ _ => true | _ => false end.

Definition is_model_call (e : event) : bool :=
  match e with ModelCall _ _ => true | _ => false end.

Definition is_http_get (e : event) : bool :=
  match e with HttpGet _ _ => true | _ => false end.

(** The tool bodies entered, in order. *)
Definition tool_runs (evs : list event) : list event :=
  List.filter is_tool_run evs.

(** The number of model round-trips. *)
Definition model_calls (evs : list event) : nat :=
  List.length (List.filter is_model_call evs).

(** The reply of a round-trip asks for a tool: [tool_calls] is a non-empty
    list. *)
Definition requests_tool (e : event) : bool :=
  match e with
  | ModelCall _ (ChatReturns (AssistantMessage _ (Some (_ :: _)))) => true
  | _ => false
  end.

(** ** A scripted environment, for concrete runs *)

Module Demo.

(** The world is a script: the HTTP requests the program is expected to make,
    each with its reply, and the replies of the model, both in order.  A
    request that the script does not expect next fails like a connection
    error, and so does any call after the script has ended. *)
Record scripted : Type := Scripted {
  http_script : list (string * http_response);
  chat_script : list assistant_message
}.

Definition scripted_get (url : string) (w : scripted) : http_result * scripted :=
  match http_script w with
  | (expected, reply) :: rest =>
      if String.eqb url expected
      then (HttpReturns reply, Scripted rest (chat_script w))
      else (HttpRaises, w)
  | [] => (HttpRaises, w)
  end.

Definition scripted_chat (messages : list message) (w : scripted)
  : chat_result * scripted :=
  match chat_script w with
  | reply :: rest => (ChatReturns reply, Scripted (http_script w) rest)
  | [] => (ChatRaises, w)
  end.

Definition fetch_arguments (owner repo file_path : string) : string :=
  Json.dumps (PDict [("owner", PStr owner); ("repo", PStr repo);
                     ("file_path", PStr file_path)]).

Definition analyze_arguments (file_path : string) : string :=
  Json.dumps (PDict [("file_path", PStr file_path)]).

(** [json.loads] on the few texts the concrete runs use: the empty object and
    the argument objects for [jquery/jquery] and [src/core.js].  No other text
    is decoded. *)
Definition table_loads (text : string) : loads_result :=
  if String.eqb text "{}" then Dict ∅
  else if String.eqb text (fetch_arguments "jquery" "jquery" "src/core.js")
  then Dict (<["owner" := "jquery"]> (<["repo" := "jquery"]>
               (<["file_path" := "src/core.js"]> ∅)))
  else if String.eqb text (analyze_arguments "src/core.js")
  then Dict (<["file_path" := "src/core.js"]> ∅)
  else DecodeError.

#[export] Instance scripted_env : Environment scripted := {
  requests_get := scripted_get;
  chat_completions_create := scripted_chat;
  json_loads := table_loads
}.

Definition fresh (w : scripted) : state scripted := State ∅ w [].

Definition not_found : http_response := HttpResponse 404 "404: Not Found".

Definition main_url : string :=
  branch_url "jquery" "jquery" "main" "src/core.js".

Definition master_url : string :=
  branch_url "jquery" "jquery" "master" "src/core.js".

End Demo.

(** ** Notions the properties are stated with *)

(** [sep.join(pieces)] for a separator of one character. *)
Fixpoint join (sep : ascii) (pieces : list string) : string :=
  match pieces with
  | [] => EmptyString
  | [piece] => piece
  | piece :: rest => piece ++ String sep (join sep rest)
  end.

Fixpoint mem_char (a : ascii) (s : string) : bool :=
  match s with
  | EmptyString => false
  | String b s' => Ascii.eqb a b || mem_char a s'
  end.

Fixpoint drop_str (n : nat) (s : string) : string :=
  match n, s with
  | O, _ => s
  | S _, EmptyString => EmptyString
  | S n', String _ s' => drop_str n' s'
  end.

(** The number of positions of [s] at which [sub] occurs, overlapping or
    not. *)
Fixpoint occurrences (sub s : string) : nat :=
  match s with
  | EmptyString => 0
  | String _ s' => (if PyStr.startswith sub s then 1 else 0) + occurrences sub s'
  end.

(** The first character of [sub] occurs nowhere else in it, so two
    occurrences of [sub] cannot overlap. *)
Definition head_unique (sub : string) : bool :=
  match sub with
  | EmptyString => false
  | String a rest => negb (mem_char a rest)
  end.

(** A line that is empty once trimmed. *)
Definition is_blank (l : string) : bool :=
  String.eqb (PyStr.strip l) EmptyString.


(** The tool body that the dispatcher enters for a tool name and decoded
    arguments, when it enters one: the name is one of the two tools and the
    arguments are a dict whose keys are the parameters of that tool. *)
Definition dispatched_run (tool_name : string) (tool_input : loads_result)
  : option event :=
  match tool_input with
  | Dict d =>
      if String.eqb tool_name "fetch_github_file" then
        match d !! "owner", d !! "repo", d !! "file_path" with
        | Some owner, Some repo, Some file_path =>
            if (size d =? 3)%nat
            then Some (ToolRun "fetch_github_file" [owner; repo; file_path])
            else None
        | _, _, _ => None
        end
      else if String.eqb tool_name "analyze_code_quality" then
        match d !! "file_path" with
        | Some file_path =>
            if (size d =? 1)%nat
            then Some (ToolRun "analyze_code_quality" [file_path])
            else None
        | None => None
        end
      else None
  | _ => None
  end.

(** The tool run that one requested invocation asks for. *)
Definition requested_run {World : Type} {env : Environment World}
  (c : tool_call) : option event :=
  dispatched_run (function_name c) (json_loads (function_arguments c)).

(** ** The outcomes of a fetch *)

Section Outcomes.

Context {World : Type} {env : Environment World}.

Implicit Types (st : state World) (owner repo path : string).

(** The five ways a fetch can go. *)
Inductive fetch_outcome st owner repo path
  : result pyval -> state World -> Prop :=
| FetchMainOk r1 w1 :
    requests_get (branch_url owner repo "main" path) (world st)
    = (HttpReturns r1, w1) ->
    status_code r1 = 200%Z ->
    fetch_outcome st owner repo path
      (Ok (fetch_success path (text r1)))
      (State (<[path := text r1]> (file_cache st)) w1
         (trace st ++ [ToolRun "fetch_github_file" [owner; repo; path];
                       HttpGet (branch_url owner repo "main" path)
                         (HttpReturns r1)]))
| FetchMasterOk r1 w1 r2 w2 :
    requests_get (branch_url owner repo "main" path) (world st)
    = (HttpReturns r1, w1) ->
    status_code r1 <> 200%Z ->
    requests_get (branch_url owner repo "master" path) w1
    = (HttpReturns r2, w2) ->
    status_code r2 = 200%Z ->
    fetch_outcome st owner repo path
      (Ok (fetch_success path (text r2)))
      (State (<[path := text r2]> (file_cache st)) w2
         (trace st ++ [ToolRun "fetch_github_file" [owner; repo; path];
                       HttpGet (branch_url owner repo "main" path)
                         (HttpReturns r1);
                       HttpGet (branch_url owner repo "master" path)
                         (HttpReturns r2)]))
| FetchBothFail r1 w1 r2 w2 :
    requests_get (branch_url owner repo "main" path) (world st)
    = (HttpReturns r1, w1) ->
    status_code r1 <> 200%Z ->
    requests_get (branch_url owner repo "master" path) w1
    = (HttpReturns r2, w2) ->
    status_code r2 <> 200%Z ->
    fetch_outcome st owner repo path
      (Ok fetch_failure)
      (State (file_cache st) w2
         (trace st ++ [ToolRun "fetch_github_file" [owner; repo; path];
                       HttpGet (branch_url owner repo "main" path)
                         (HttpReturns r1);
                       HttpGet (branch_url owner repo "master" path)
                         (HttpReturns r2)]))
| FetchMainRaises w1 :
    requests_get (branch_url owner repo "main" path) (world st)
    = (HttpRaises, w1) ->
    fetch_outcome st owner repo path
      (Raise RequestException)
      (State (file_cache st) w1
         (trace st ++ [ToolRun "fetch_github_file" [owner; repo; path];
                       HttpGet (branch_url owner repo "main" path) HttpRaises]))
| FetchMasterRaises r1 w1 w2 :
    requests_get (branch_url owner repo "main" path) (world st)
    = (HttpReturns r1, w1) ->
    status_code r1 <> 200%Z ->
    requests_get (branch_url owner repo "master" path) w1 = (HttpRaises, w2) ->
    fetch_outcome st owner repo path
      (Raise RequestException)
      (State (file_cache st) w2
         (trace st ++ [ToolRun "fetch_github_file" [owner; repo; path];
                       HttpGet (branch_url owner repo "main" path)
                         (HttpReturns r1);
                       HttpGet (branch_url owner repo "master" path)
                         HttpRaises])).

End Outcomes.

(** ** Concrete inputs *)

Module Runs.

Import Demo.

Definition core_js : string := "src/core.js".

(** [main] answers 404 and [master] answers 200. *)
Definition on_master : scripted :=
  Scripted [(main_url, not_found);
            (master_url, HttpResponse 200 "let x = 1")] [].

(** Both branches answer 404. *)
Definition nowhere : scripted :=
  Scripted [(main_url, not_found); (master_url, not_found)] [].

(** The file is on [main] at the first fetch and gone at the second. *)
Definition removed_later : scripted :=
  Scripted [(main_url, HttpResponse 200 "var jQuery;");
            (main_url, not_found); (master_url, not_found)] [].

(** A state whose cache holds one fetched file. *)
Definition cached (path body : string) (w : scripted) : state scripted :=
  State (<[path := body]> ∅) w [].

(** Ten lines: two [//] comments, three blank lines, five lines of code. *)
Definition ten_lines : string :=
  join newline
    ["// jQuery core"; "  // version 1"; EmptyString; "function size() {";
     "  return 1;"; "}"; EmptyString; "const limit = 10;"; "let count = 0;";
     "   "].

Definition one_liner : string := "function foo(){} const x = 1; let y = 2;".

Definition analyze_call : tool_call :=
  ToolCall "call_1" "analyze_code_quality" (analyze_arguments core_js).

Definition fetch_call : tool_call :=
  ToolCall "call_2" "fetch_github_file"
    (fetch_arguments "jquery" "jquery" core_js).

Definition unknown_call : tool_call := ToolCall "call_1" "run_tests" "{}".

(** The model requests two invocations in one reply. *)
Definition two_requests : scripted :=
  Scripted [] [AssistantMessage None (Some [analyze_call; fetch_call])].

(** The model requests a tool that the dispatcher does not know. *)
Definition unknown_request : scripted :=
  Scripted [] [AssistantMessage None (Some [unknown_call])].

(** The model requests a tool in each of its first [n] replies. *)
Definition insistent (n : nat) : scripted :=
  Scripted [] (repeat (AssistantMessage None (Some [unknown_call])) n).

Definition question : list message := initial_messages "Analyze src/core.js".

(** No request succeeds: every call to the network raises. *)
Definition offline : scripted := Scripted [] [].

(** The dict [{"file_path": "src/core.js"}]. *)
Definition path_only : gmap string string := <["file_path" := core_js]> ∅.

(** The model requests a fetch with an argument string that is no JSON. *)
Definition garbled_call : tool_call :=
  ToolCall "call_1" "fetch_github_file" "owner=jquery".

Definition garbled_request : scripted :=
  Scripted [] [AssistantMessage None (Some [garbled_call])].

(** The model fetches, analyses and then answers. *)
Definition three_passes : scripted :=
  Scripted (http_script on_master)
    [AssistantMessage None (Some [fetch_call]);
     AssistantMessage None (Some [analyze_call]);
     AssistantMessage (Some "Score: 7/10") None].

(** The state in which the run of [three_passes] ends. *)
Definition three_passes_end : state scripted :=
  match run_agent "Analyze src/core.js" (fresh three_passes) with
  | Some (_, st') => st'
  | None => fresh three_passes
  end.

End Runs.

(** ** Further notions *)

(** The number of occurrences of the character [a] in [s]. *)
Fixpoint count_char (a : ascii) (s : string) : nat :=
  match s with
  | EmptyString => 0
  | String b s' => (if Ascii.eqb a b then 1 else 0) + count_char a s'
  end.

(** Every character of [s] is whitespace. *)
Fixpoint all_space (s : string) : bool :=
  match s with
  | EmptyString => true
  | String c s' => PyStr.is_space c && all_space s'
  end.

(** The HTTP requests made, in order. *)
Definition http_gets (evs : list event) : list event :=
  List.filter is_http_get evs.

(** The model calls made, in order. *)
Definition model_events (evs : list event) : list event :=
  List.filter is_model_call evs.


(** How the cache [c'] after a computation relates to the cache [c] before
    it, given the events [evs] of the computation: no entry is lost; every
    entry is an old one or the body of a response with status 200 among the
    events; and an entry changes only if a fetch of its path was run. *)
Definition cache_step (c c' : gmap string string) (evs : list event) : Prop :=
  (forall p, is_Some (c !! p) -> is_Some (c' !! p))
  /\ (forall p body, c' !! p = Some body ->
        c !! p = Some body
        \/ exists url,
             In (HttpGet url (HttpReturns (HttpResponse 200 body))) evs)
  /\ (forall p,
        (forall owner repo,
           ~ In (ToolRun "fetch_github_file" [owner; repo; p]) evs) ->
        c' !! p = c !! p).

(** The runs of the [while] loop, pass by pass: from pass number [iteration]
    with transcript [messages] in state [st], the loop ends with a result
    in a state. *)
Section LoopRuns.

Context {World : Type} {env : Environment World}.

Inductive loop_run
  : nat -> list message -> state World
    -> result (option string) -> state World -> Prop :=
| LoopExhausted iteration messages st :
    (max_iterations <= iteration)%nat ->
    loop_run iteration messages st (Ok (Some "Max iterations reached")) st
| LoopReturn iteration messages st final_response st' :
    (iteration < max_iterations)%nat ->
    iteration_body messages st = (Ok (Return final_response), st') ->
    loop_run iteration messages st (Ok final_response) st'
| LoopRaise iteration messages st e st' :
    (iteration < max_iterations)%nat ->
    iteration_body messages st = (Raise e, st') ->
    loop_run iteration messages st (Raise e) st'
| LoopContinue iteration messages st messages' st1 r st' :
    (iteration < max_iterations)%nat ->
    iteration_body messages st = (Ok (Continue messages'), st1) ->
    loop_run (S iteration) messages' st1 r st' ->
    loop_run iteration messages st r st'.

End LoopRuns.

(** * Properties *)

(** ** Strings *)

Lemma startswith_refl s : PyStr.startswith s s = true.
Proof.
  induction s as [|a s IH]; simpl; [reflexivity|].
  rewrite Ascii.eqb_refl. exact IH.
Qed.

Lemma split_not_nil sep s : PyStr.split sep s <> [].
Proof.
  destruct s as [|c s]; simpl; [discriminate|].
  destruct (Ascii.eqb c sep); [discriminate|].
  destruct (PyStr.split sep s); discriminate.
Qed.



(** After a prefix [t], each of the first [len t] positions starts with a
    character of [t]. *)
Lemma startswith_drop_head t : forall s j,
  PyStr.startswith t s = true -> (j < String.length t)%nat ->
  exists b rest, drop_str j s = String b rest /\ mem_char b t = true.
Proof.
  induction t as [|a t IH]; intros s j Hpre Hj; simpl in Hj; [lia|].
  destruct s as [|c s]; simpl in Hpre; [discriminate|].
  apply andb_prop in Hpre as [Hac Hpre].
  apply Ascii.eqb_eq in Hac. subst c.
  destruct j as [|j]; simpl.
  - exists a, s. split; [reflexivity|]. rewrite Ascii.eqb_refl. reflexivity.
  - destruct (IH s j Hpre ltac:(lia)) as (b & rest & Hd & Hb).
    exists b, rest. split; [exact Hd|]. rewrite Hb. apply orb_true_r.
Qed.

(** Two occurrences of a [head_unique] token do not overlap. *)
Lemma no_overlap sub c s j :
  head_unique sub = true ->
  PyStr.startswith sub (String c s) = true ->
  (j < String.length sub - 1)%nat ->
  PyStr.startswith sub (drop_str j s) = false.
Proof.
  intros Hu Hpre Hj.
  destruct sub as [|a t]; [discriminate|].
  simpl in Hu, Hpre, Hj. apply andb_prop in Hpre as [_ Hpre].
  destruct (startswith_drop_head t s j Hpre ltac:(lia)) as (b & rest & Hd & Hb).
  rewrite Hd. simpl.
  destruct (Ascii.eqb a b) eqn:E; [|reflexivity].
  apply Ascii.eqb_eq in E. subst b.
  rewrite Hb in Hu. discriminate.
Qed.

(** While the scan consumes a match, no occurrence starts. *)
Lemma count_scan_occurrences sub :
  head_unique sub = true ->
  forall s skip,
    (forall j, (j < skip)%nat -> PyStr.startswith sub (drop_str j s) = false) ->
    PyStr.count_scan sub skip s = occurrences sub s.
Proof.
  intros Hu. induction s as [|c s IH]; intros skip Hskip; [reflexivity|].
  cbn [PyStr.count_scan occurrences].
  destruct skip as [|k].
  - destruct (PyStr.startswith sub (String c s)) eqn:Hpre.
    + rewrite (IH (String.length sub - 1)%nat); [reflexivity|].
      intros j Hj. exact (no_overlap sub c s j Hu Hpre Hj).
    + rewrite (IH 0%nat); [reflexivity|]. intros j Hj. lia.
  - pose proof (Hskip 0%nat ltac:(lia)) as H0.
    change (drop_str 0 (String c s)) with (String c s) in H0.
    rewrite H0. rewrite (IH k); [reflexivity|].
    intros j Hj. exact (Hskip (S j) ltac:(lia)).
Qed.

(** For a token whose first character is unique in it, [str.count] is the
    number of occurrences. *)
Lemma count_occurrences sub s :
  head_unique sub = true ->
  PyStr.count sub s = Z.of_nat (occurrences sub s).
Proof.
  intros Hu. unfold PyStr.count.
  destruct sub as [|a t]; [discriminate|].
  rewrite (count_scan_occurrences _ Hu s 0%nat); [reflexivity|].
  intros j Hj. lia.
Qed.



(** A non-empty list of separator-free pieces is the split of its join. *)
Lemma split_join sep pieces :
  pieces <> [] ->
  Forall (fun piece => mem_char sep piece = false) pieces ->
  PyStr.split sep (join sep pieces) = pieces.
Proof.
  assert (Happ : forall p rest, mem_char sep p = false ->
            PyStr.split sep (p ++ String sep rest)
            = p :: PyStr.split sep rest).
  { induction p as [|c p IHp]; intros rest Hp; simpl.
    - rewrite Ascii.eqb_refl. reflexivity.
    - simpl in Hp. apply orb_false_elim in Hp as [Hc Hp].
      rewrite Ascii.eqb_sym, Hc. rewrite (IHp rest Hp). reflexivity. }
  assert (Hone : forall p, mem_char sep p = false -> PyStr.split sep p = [p]).
  { induction p as [|c p IHp]; intros Hp; simpl; [reflexivity|].
    simpl in Hp. apply orb_false_elim in Hp as [Hc Hp].
    rewrite Ascii.eqb_sym, Hc. rewrite (IHp Hp). reflexivity. }
  induction pieces as [|p ps IH]; intros Hne Hfree; [congruence|].
  inversion Hfree as [|? ? Hp Hps]; subst.
  destruct ps as [|q ps].
  - simpl. apply Hone, Hp.
  - change (join sep (p :: q :: ps)) with (p ++ String sep (join sep (q :: ps))).
    rewrite (Happ _ _ Hp). rewrite IH; [reflexivity|discriminate|exact Hps].
Qed.

(** ** The tools *)

Section Tools.

Context {World : Type} {env : Environment World}.

Implicit Types (st : state World) (path code : string).

(** What [analyze_code_quality] does, in one equation. *)
Lemma analyze_code_quality_eq st path :
  analyze_code_quality path st
  = (Ok match file_cache st !! path with
        | None => not_fetched
        | Some code =>
            metrics path
              (Z.of_nat (List.length (PyStr.split newline code)))
              (Z.of_nat (List.length
                 (List.filter is_code_line (PyStr.split newline code))))
              (PyStr.count "function " code + PyStr.count "def " code
               + PyStr.count "const " code + PyStr.count "let " code)
        end,
     State (file_cache st) (world st)
       (trace st ++ [ToolRun "analyze_code_quality" [path]])).
Proof.
  unfold analyze_code_quality, bind, log, cache_read, ret. simpl.
  destruct (file_cache st !! path); reflexivity.
Qed.

(** C1.  For a path that is not a key of the cache, [analyze_code_quality]
    returns (it does not raise) the dict whose only field is ["error"], with
    the text that the file must be fetched first; no metric is computed. *)
Theorem analyze_unfetched_is_error st path :
  file_cache st !! path = None ->
  analyze_code_quality path st
  = (Ok (PDict [("error",
                 PStr "File not fetched yet. Call fetch_github_file first.")]),
     State (file_cache st) (world st)
       (trace st ++ [ToolRun "analyze_code_quality" [path]])).
Proof.
  intros Hnone. rewrite analyze_code_quality_eq, Hnone. reflexivity.
Qed.

(** C10.  [analyze_code_quality] only reads the cache: whatever the path and
    the state, the cache after the call is the cache before it. *)
Theorem analyze_preserves_cache st path :
  file_cache (snd (analyze_code_quality path st)) = file_cache st.
Proof.
  rewrite analyze_code_quality_eq. reflexivity.
Qed.


Lemma is_code_line_split l :
  is_code_line l
  = negb (is_blank l)
    && negb (PyStr.startswith_any comment_prefixes (PyStr.strip l)).
Proof. reflexivity. Qed.



(** C8.  For a cached text, [estimated_functions] is the sum of the counts of
    the four tokens ["function "], ["def "], ["const "] and ["let "]; a count
    is the number of matches of one token that do not overlap each other,
    which for these tokens is the number of positions where the token occurs.
    In particular for the text [function foo(){} const x = 1; let y = 2;]
    the returned dict has [3] under the key ["estimated_functions"]. *)
Theorem analyze_estimates_functions st path code :
  file_cache st !! path = Some code ->
  let st' := State (file_cache st) (world st)
               (trace st ++ [ToolRun "analyze_code_quality" [path]]) in
  (exists total_lines code_lines,
     analyze_code_quality path st
     = (Ok (PDict
              [("file_path", PStr path);
               ("total_lines", PInt total_lines);
               ("code_lines", PInt code_lines);
               ("estimated_functions",
                PInt (PyStr.count "function " code + PyStr.count "def " code
                      + PyStr.count "const " code + PyStr.count "let " code));
               ("note", PStr "Metrics calculated from cached file.")]), st'))
  /\ (forall token, In token ["function "; "def "; "const "; "let "] ->
        PyStr.count token code = Z.of_nat (occurrences token code))
  /\ (code = "function foo(){} const x = 1; let y = 2;" ->
      analyze_code_quality path st
      = (Ok (PDict
               [("file_path", PStr path);
                ("total_lines", PInt 1);
                ("code_lines", PInt 1);
                ("estimated_functions", PInt 3);
                ("note", PStr "Metrics calculated from cached file.")]), st')).
Proof.
  intros Hcode st'. split; [|split].
  - eexists _, _. rewrite analyze_code_quality_eq, Hcode. reflexivity.
  - intros token Hin. apply count_occurrences.
    simpl in Hin.
    destruct Hin as [<-|[<-|[<-|[<-|[]]]]]; reflexivity.
  - intros ->. rewrite analyze_code_quality_eq, Hcode. reflexivity.
Qed.

End Tools.

(** ** Remote fetch *)

Arguments branch_url : simpl never.

Lemma events_since_app {World : Type} (st st' : state World) evs :
  trace st' = (trace st ++ evs)%list -> events_since st st' = evs.
Proof.
  intros H. unfold events_since. rewrite H. apply drop_app_length.
Qed.

Lemma events_since_refl {World : Type} (st : state World) :
  events_since st st = [].
Proof.
  apply events_since_app. symmetry. apply app_nil_r.
Qed.

Section Fetch.

Context {World : Type} {env : Environment World}.

Implicit Types (st : state World) (owner repo path : string).

(** The first attempt answers 200. *)
Lemma fetch_main_ok st owner repo path r1 w1 :
  requests_get (branch_url owner repo "main" path) (world st)
  = (HttpReturns r1, w1) ->
  status_code r1 = 200%Z ->
  fetch_github_file owner repo path st
  = (Ok (fetch_success path (text r1)),
     State (<[path := text r1]> (file_cache st)) w1
       (trace st ++ [ToolRun "fetch_github_file" [owner; repo; path];
                     HttpGet (branch_url owner repo "main" path) (HttpReturns r1)])).
Proof.
  intros Hget Hstatus.
  unfold fetch_github_file, bind, log, http_get. simpl.
  rewrite Hget. simpl. rewrite Hstatus. simpl.
  unfold cache_store, ret. simpl. rewrite <- app_assoc. reflexivity.
Qed.

(** The first attempt answers another status and the second answers 200. *)
Lemma fetch_master_ok st owner repo path r1 w1 r2 w2 :
  requests_get (branch_url owner repo "main" path) (world st)
  = (HttpReturns r1, w1) ->
  status_code r1 <> 200%Z ->
  requests_get (branch_url owner repo "master" path) w1
  = (HttpReturns r2, w2) ->
  status_code r2 = 200%Z ->
  fetch_github_file owner repo path st
  = (Ok (fetch_success path (text r2)),
     State (<[path := text r2]> (file_cache st)) w2
       (trace st ++ [ToolRun "fetch_github_file" [owner; repo; path];
                     HttpGet (branch_url owner repo "main" path) (HttpReturns r1);
                     HttpGet (branch_url owner repo "master" path) (HttpReturns r2)])).
Proof.
  intros Hget1 Hstatus1 Hget2 Hstatus2.
  apply Z.eqb_neq in Hstatus1.
  unfold fetch_github_file, bind, log, http_get. simpl.
  rewrite Hget1. simpl. rewrite Hstatus1. simpl. rewrite Hget2. simpl.
  rewrite Hstatus2. simpl.
  unfold cache_store, ret. simpl. repeat rewrite <- app_assoc. reflexivity.
Qed.

(** Both attempts answer, neither with 200. *)
Lemma fetch_both_fail st owner repo path r1 w1 r2 w2 :
  requests_get (branch_url owner repo "main" path) (world st)
  = (HttpReturns r1, w1) ->
  status_code r1 <> 200%Z ->
  requests_get (branch_url owner repo "master" path) w1
  = (HttpReturns r2, w2) ->
  status_code r2 <> 200%Z ->
  fetch_github_file owner repo path st
  = (Ok fetch_failure,
     State (file_cache st) w2
       (trace st ++ [ToolRun "fetch_github_file" [owner; repo; path];
                     HttpGet (branch_url owner repo "main" path) (HttpReturns r1);
                     HttpGet (branch_url owner repo "master" path) (HttpReturns r2)])).
Proof.
  intros Hget1 Hstatus1 Hget2 Hstatus2.
  apply Z.eqb_neq in Hstatus1. apply Z.eqb_neq in Hstatus2.
  unfold fetch_github_file, bind, log, http_get. simpl.
  rewrite Hget1. simpl. rewrite Hstatus1. simpl. rewrite Hget2. simpl.
  rewrite Hstatus2. simpl.
  unfold ret. repeat rewrite <- app_assoc. reflexivity.
Qed.

(** The first request raises: the second is not made. *)
Lemma fetch_main_raises st owner repo path w1 :
  requests_get (branch_url owner repo "main" path) (world st)
  = (HttpRaises, w1) ->
  fetch_github_file owner repo path st
  = (Raise RequestException,
     State (file_cache st) w1
       (trace st ++ [ToolRun "fetch_github_file" [owner; repo; path];
                     HttpGet (branch_url owner repo "main" path) HttpRaises])).
Proof.
  intros Hget.
  unfold fetch_github_file, bind, log, http_get. simpl.
  rewrite Hget. simpl. rewrite <- app_assoc. reflexivity.
Qed.

(** The second request raises. *)
Lemma fetch_master_raises st owner repo path r1 w1 w2 :
  requests_get (branch_url owner repo "main" path) (world st)
  = (HttpReturns r1, w1) ->
  status_code r1 <> 200%Z ->
  requests_get (branch_url owner repo "master" path) w1 = (HttpRaises, w2) ->
  fetch_github_file owner repo path st
  = (Raise RequestException,
     State (file_cache st) w2
       (trace st ++ [ToolRun "fetch_github_file" [owner; repo; path];
                     HttpGet (branch_url owner repo "main" path) (HttpReturns r1);
                     HttpGet (branch_url owner repo "master" path) HttpRaises])).
Proof.
  intros Hget1 Hstatus1 Hget2.
  apply Z.eqb_neq in Hstatus1.
  unfold fetch_github_file, bind, log, http_get. simpl.
  rewrite Hget1. simpl. rewrite Hstatus1. simpl. rewrite Hget2. simpl.
  repeat rewrite <- app_assoc. reflexivity.
Qed.

Lemma fetch_github_file_outcome st owner repo path :
  fetch_outcome st owner repo path
    (fst (fetch_github_file owner repo path st))
    (snd (fetch_github_file owner repo path st)).
Proof.
  destruct (requests_get (branch_url owner repo "main" path) (world st))
    as [[|r1] w1] eqn:Hget1.
  - rewrite (fetch_main_raises _ _ _ _ _ Hget1). simpl.
    apply FetchMainRaises. exact Hget1.
  - destruct (Z.eq_dec (status_code r1) 200) as [H1|H1].
    + rewrite (fetch_main_ok _ _ _ _ _ _ Hget1 H1). simpl.
      apply FetchMainOk; assumption.
    + destruct (requests_get (branch_url owner repo "master" path) w1)
        as [[|r2] w2] eqn:Hget2.
      * rewrite (fetch_master_raises _ _ _ _ _ _ _ Hget1 H1 Hget2). simpl.
        eapply FetchMasterRaises; eassumption.
      * destruct (Z.eq_dec (status_code r2) 200) as [H2|H2].
        -- rewrite (fetch_master_ok _ _ _ _ _ _ _ _ Hget1 H1 Hget2 H2). simpl.
           eapply FetchMasterOk; eassumption.
        -- rewrite (fetch_both_fail _ _ _ _ _ _ _ _ Hget1 H1 Hget2 H2). simpl.
           eapply FetchBothFail; eassumption.
Qed.

End Fetch.

Section FetchProperties.

Context {World : Type} {env : Environment World}.

Implicit Types (st : state World) (owner repo path : string).

(** C2.  When one of the requests that a call of [fetch_github_file] makes is
    answered with status 200 and body [t], the call returns
    [{"success": True, "file_path": path, "size": len(t)}], the request went
    to the [main] or to the [master] address, and afterwards the cache entry
    of [path] is [t]. *)
Theorem fetch_success_roundtrip st owner repo path r st' url t :
  fetch_github_file owner repo path st = (r, st') ->
  In (HttpGet url (HttpReturns (HttpResponse 200 t))) (events_since st st') ->
  r = Ok (PDict [("success", PBool true); ("file_path", PStr path);
                 ("size", PInt (Z.of_nat (String.length t)))])
  /\ file_cache st' !! path = Some t
  /\ (url = branch_url owner repo "main" path
      \/ url = branch_url owner repo "master" path).
Proof.
  intros Hrun Hin.
  pose proof (fetch_github_file_outcome st owner repo path) as Hout.
  rewrite Hrun in Hout. simpl in Hout.
  inversion Hout as [r1 w1 Hg1 Hs1 | r1 w1 r2 w2 Hg1 Hs1 Hg2 Hs2
                    | r1 w1 r2 w2 Hg1 Hs1 Hg2 Hs2 | w1 Hg1
                    | r1 w1 w2 Hg1 Hs1 Hg2]; subst r st';
    unfold events_since in Hin; cbn [trace] in Hin;
    rewrite drop_app_length in Hin; simpl in Hin.
  - destruct Hin as [Hin|[Hin|[]]]; [discriminate|].
    injection Hin as Hurl Hr1. subst r1. simpl.
    split; [reflexivity|]. split; [apply lookup_insert_eq|]. left. congruence.
  - destruct Hin as [Hin|[Hin|[Hin|[]]]]; [discriminate| |].
    + injection Hin as _ Hr1. subst r1. simpl in Hs1. congruence.
    + injection Hin as Hurl Hr2. subst r2. simpl.
      split; [reflexivity|]. split; [apply lookup_insert_eq|]. right. congruence.
  - destruct Hin as [Hin|[Hin|[Hin|[]]]]; [discriminate| |].
    + injection Hin as _ Hr1. subst r1. simpl in Hs1. congruence.
    + injection Hin as _ Hr2. subst r2. simpl in Hs2. congruence.
  - destruct Hin as [Hin|[Hin|[]]]; discriminate.
  - destruct Hin as [Hin|[Hin|[Hin|[]]]]; [discriminate| |discriminate].
    injection Hin as _ Hr1. subst r1. simpl in Hs1. congruence.
Qed.

(** C3, as the script has it.  [fetch_github_file] asks the [main] address
    first and the [master] address second; when both answer with a status
    other than 200 it returns [{"success": False, "error": "File not found"}]
    and leaves the cache as it was: it stores nothing under [path], so a path
    that had no entry has none afterwards. *)
Theorem fetch_not_found_keeps_cache st owner repo path r1 w1 r2 w2 :
  requests_get (branch_url owner repo "main" path) (world st)
  = (HttpReturns r1, w1) ->
  status_code r1 <> 200%Z ->
  requests_get (branch_url owner repo "master" path) w1
  = (HttpReturns r2, w2) ->
  status_code r2 <> 200%Z ->
  let '(r, st') := fetch_github_file owner repo path st in
  r = Ok (PDict [("success", PBool false); ("error", PStr "File not found")])
  /\ events_since st st'
     = [ToolRun "fetch_github_file" [owner; repo; path];
        HttpGet (branch_url owner repo "main" path) (HttpReturns r1);
        HttpGet (branch_url owner repo "master" path) (HttpReturns r2)]
  /\ file_cache st' = file_cache st
  /\ (file_cache st !! path = None -> file_cache st' !! path = None).
Proof.
  intros Hg1 Hs1 Hg2 Hs2.
  rewrite (fetch_both_fail _ _ _ _ _ _ _ _ Hg1 Hs1 Hg2 Hs2).
  split; [reflexivity|].
  split; [apply events_since_app; reflexivity|].
  split; [reflexivity|]. intros H. exact H.
Qed.

(** C9.  For a tool name other than the two known ones, and any decoded
    arguments, [process_tool_call] returns [None] and changes nothing: no
    tool body is entered, no request is made, the cache is the same. *)
Theorem unknown_tool_returns_none st tool_name tool_input :
  tool_name <> "fetch_github_file" ->
  tool_name <> "analyze_code_quality" ->
  process_tool_call tool_name tool_input st = (Ok PNone, st).
Proof.
  intros Hf Ha. unfold process_tool_call.
  apply String.eqb_neq in Hf. apply String.eqb_neq in Ha.
  rewrite Hf, Ha. reflexivity.
Qed.

End FetchProperties.

(** ** The dispatcher and the loop *)

Lemma http_only_no_runs evs :
  forallb is_http_get evs = true ->
  tool_runs evs = [] /\ model_calls evs = 0%nat.
Proof.
  unfold tool_runs, model_calls.
  induction evs as [|e evs IH]; intros H; [split; reflexivity|].
  simpl in H. apply andb_prop in H as [He H].
  destruct e; try discriminate. simpl. exact (IH H).
Qed.

Lemma tool_runs_app evs1 evs2 :
  tool_runs (evs1 ++ evs2) = (tool_runs evs1 ++ tool_runs evs2)%list.
Proof. apply List.filter_app. Qed.

Lemma model_calls_app evs1 evs2 :
  model_calls (evs1 ++ evs2) = (model_calls evs1 + model_calls evs2)%nat.
Proof.
  unfold model_calls. rewrite List.filter_app. apply List.length_app.
Qed.

Section Loop.

Context {World : Type} {env : Environment World}.

Implicit Types (st : state World) (messages : list message).

(** A fetch enters one tool body and otherwise only makes requests. *)
Lemma fetch_github_file_trace st owner repo path :
  exists evs,
    trace (snd (fetch_github_file owner repo path st))
    = (trace st ++ ToolRun "fetch_github_file" [owner; repo; path] :: evs)%list
    /\ forallb is_http_get evs = true.
Proof.
  destruct (fetch_github_file_outcome st owner repo path);
    eexists; (split; [reflexivity|reflexivity]).
Qed.

(** The dispatcher enters the tool body that [dispatched_run] names, or
    none, and calls the model never. *)
Lemma process_tool_call_trace st tool_name tool_input :
  exists evs,
    trace (snd (process_tool_call tool_name tool_input st))
    = (trace st ++ evs)%list
    /\ tool_runs evs = option_list (dispatched_run tool_name tool_input)
    /\ model_calls evs = 0%nat.
Proof.
  assert (Hnone : exists evs : list event,
            trace st = (trace st ++ evs)%list
            /\ tool_runs evs = [] /\ model_calls evs = 0%nat).
  { exists []. rewrite app_nil_r. repeat split; reflexivity. }
  unfold process_tool_call, dispatched_run.
  destruct (String.eqb tool_name "fetch_github_file").
  - unfold call_fetch_github_file.
    destruct tool_input as [| |d]; try exact Hnone.
    destruct (d !! "owner") as [owner|]; [|exact Hnone].
    destruct (d !! "repo") as [repo|]; [|exact Hnone].
    destruct (d !! "file_path") as [path|]; [|exact Hnone].
    destruct (size d =? 3)%nat; [|exact Hnone].
    destruct (fetch_github_file_trace st owner repo path) as (evs & Ht & Hh).
    destruct (http_only_no_runs evs Hh) as [Hr Hm].
    exists (ToolRun "fetch_github_file" [owner; repo; path] :: evs).
    split; [exact Ht|].
    unfold tool_runs, model_calls in *. simpl. rewrite Hr, Hm.
    split; reflexivity.
  - destruct (String.eqb tool_name "analyze_code_quality").
    + unfold call_analyze_code_quality.
      destruct tool_input as [| |d]; try exact Hnone.
      destruct (d !! "file_path") as [path|]; [|destruct tool_name; exact Hnone].
      destruct (size d =? 1)%nat; [|exact Hnone].
      rewrite analyze_code_quality_eq. simpl.
      eexists. split; [reflexivity|]. split; reflexivity.
    + destruct tool_input; exact Hnone.
Qed.

(** The body of the [if] for a reply whose first invocation is [c]. *)
Lemma handle_reply_tool st messages a c rest :
  tool_calls a = Some (c :: rest) ->
  handle_reply a messages st
  = match json_loads (function_arguments c) with
    | DecodeError => (Raise JSONDecodeError, st)
    | tool_args =>
        match process_tool_call (function_name c) tool_args st with
        | (Ok result, st') =>
            (Ok (Continue
                   (messages
                    ++ [AssistantCalls EmptyString
                          [ToolCallEntry (call_id c) "function"
                             (function_name c) (function_arguments c)];
                        ToolMessage (call_id c) (Json.dumps result)])), st')
        | (Raise e, st') => (Raise e, st')
        end
    end.
Proof.
  intros Hcalls. unfold handle_reply. rewrite Hcalls.
  unfold bind, loads, raise, ret, entry_of.
  destruct (json_loads (function_arguments c)); try reflexivity;
    destruct (process_tool_call _ _ st) as [[result|e] st'];
    try reflexivity; rewrite <- app_assoc; reflexivity.
Qed.

(** A reply with no invocation ends the loop with its text. *)
Lemma handle_reply_final st messages a :
  requests_tool (ModelCall messages (ChatReturns a)) = false ->
  handle_reply a messages st = (Ok (Return (content a)), st).
Proof.
  destruct a as [text [[|c rest]|]]; simpl; intros H;
    [reflexivity|discriminate|reflexivity].
Qed.

(** One pass of the loop is one model call followed by [handle_reply]. *)
Lemma iteration_body_eq st messages :
  iteration_body messages st
  = let (reply, w) := chat_completions_create messages (world st) in
    let st1 := State (file_cache st) w
                 (trace st ++ [ModelCall messages reply]) in
    match reply with
    | ChatRaises => (Raise APIError, st1)
    | ChatReturns a => handle_reply a messages st1
    end.
Proof.
  unfold iteration_body, bind, chat.
  destruct (chat_completions_create messages (world st)) as [[|a] w];
    reflexivity.
Qed.

End Loop.

(** Dicts and the parameters of the tools. *)

Lemma required_no_dup t : In t tools -> NoDup (required t).
Proof.
  intros [<-|[<-|[]]]; apply (bool_decide_unpack _); vm_compute; reflexivity.
Qed.

(** The keys of a dict with the lookups and the size that the binding of
    keyword arguments checks. *)
Lemma bound_keys (d : gmap string string) (keys : list string) :
  NoDup keys ->
  Forall (fun k => is_Some (d !! k)) keys ->
  size d = List.length keys ->
  dom d = (list_to_set keys : gset string).
Proof.
  intros Hnd Hall Hsize. symmetry. apply set_subseteq_size_eq.
  - intros k Hk. apply elem_of_list_to_set in Hk.
    apply elem_of_dom. rewrite Forall_forall in Hall. apply Hall, Hk.
  - rewrite size_dom, Hsize, size_list_to_set by exact Hnd. lia.
Qed.

Lemma keys_bound (d : gmap string string) (keys : list string) :
  NoDup keys ->
  dom d = (list_to_set keys : gset string) ->
  Forall (fun k => is_Some (d !! k)) keys /\ size d = List.length keys.
Proof.
  intros Hnd Hdom. split.
  - apply Forall_forall. intros k Hk. apply elem_of_dom. rewrite Hdom.
    apply elem_of_list_to_set, Hk.
  - rewrite <- (size_dom (D:=gset string)), Hdom.
    apply size_list_to_set, Hnd.
Qed.

Section LoopProperties.

Context {World : Type} {env : Environment World}.

Implicit Types (st : state World) (messages : list message).

(** What [handle_reply] adds to the trace for a reply whose first invocation
    is [c]: the run that [c] asks for, or nothing. *)
Lemma handle_reply_trace st messages a c rest :
  tool_calls a = Some (c :: rest) ->
  exists evs,
    trace (snd (handle_reply a messages st)) = (trace st ++ evs)%list
    /\ tool_runs evs = option_list (requested_run c)
    /\ model_calls evs = 0%nat.
Proof.
  intros Hcalls. rewrite (handle_reply_tool st messages a c rest Hcalls).
  unfold requested_run.
  pose proof (process_tool_call_trace st (function_name c)
                (json_loads (function_arguments c))) as Hp.
  destruct (json_loads (function_arguments c)) as [| |d] eqn:Hl.
  - exists []. rewrite app_nil_r. repeat split; reflexivity.
  - destruct (process_tool_call _ NotADict st) as [[result|e] st']; exact Hp.
  - destruct (process_tool_call _ (Dict d) st) as [[result|e] st']; exact Hp.
Qed.

(** C4, as the script has it.  In an iteration whose model reply requests one
    or more invocations, at most one tool body is entered, and only for the
    first requested invocation: exactly that one when the first invocation
    names one of the two tools and its arguments decode to a dict whose keys
    are exactly that tool's parameters, and none otherwise.  In particular
    none is entered when the name is not one of the two: then, if the
    arguments decode, the dispatcher returns [None] and the iteration
    completes, appending the assistant message and a tool message whose
    content is [null]; if they do not decode, the iteration raises instead.
    The invocations after the first play no part: the iteration goes the same
    way whatever they are. *)
Theorem one_tool_run_per_iteration st messages a w c rest :
  chat_completions_create messages (world st) = (ChatReturns a, w) ->
  tool_calls a = Some (c :: rest) ->
  let st' := snd (iteration_body messages st) in
  let st_chat := State (file_cache st) w
                   (trace st ++ [ModelCall messages (ChatReturns a)]) in
  tool_runs (events_since st st') = option_list (requested_run c)
  /\ (List.length (tool_runs (events_since st st')) <= 1)%nat
  /\ (forall t d,
        In t tools ->
        function_name c = schema_name t ->
        json_loads (function_arguments c) = Dict d ->
        dom d = (list_to_set (required t) : gset string) ->
        exists args,
          Forall2 (fun k v => d !! k = Some v) (required t) args
          /\ tool_runs (events_since st st') = [ToolRun (schema_name t) args])
  /\ (~ (exists t d,
           In t tools
           /\ function_name c = schema_name t
           /\ json_loads (function_arguments c) = Dict d
           /\ dom d = (list_to_set (required t) : gset string)) ->
      tool_runs (events_since st st') = [])
  /\ (function_name c <> "fetch_github_file" ->
      function_name c <> "analyze_code_quality" ->
      tool_runs (events_since st st') = []
      /\ (json_loads (function_arguments c) <> DecodeError ->
          iteration_body messages st
          = (Ok (Continue
                   (messages
                    ++ [AssistantCalls EmptyString
                          [ToolCallEntry (call_id c) "function"
                             (function_name c) (function_arguments c)];
                        ToolMessage (call_id c) "null"])),
             st_chat))
      /\ (json_loads (function_arguments c) = DecodeError ->
          iteration_body messages st = (Raise JSONDecodeError, st_chat)))
  /\ (forall st1 others,
        handle_reply (AssistantMessage (content a) (Some (c :: others)))
          messages st1
        = handle_reply a messages st1).
Proof.
  intros Hchat Hcalls st' st_chat.
  assert (Hruns : tool_runs (events_since st st') = option_list (requested_run c)).
  { subst st'. rewrite iteration_body_eq, Hchat. cbv beta iota zeta.
    fold st_chat.
    destruct (handle_reply_trace st_chat messages a c rest Hcalls)
      as (evs & Ht & Hr & _).
    rewrite (events_since_app st _ (ModelCall messages (ChatReturns a) :: evs)).
    - unfold tool_runs in *. simpl. exact Hr.
    - rewrite Ht. subst st_chat. simpl. rewrite <- app_assoc. reflexivity. }
  split; [exact Hruns|]. split; [|split; [|split; [|split]]].
  - rewrite Hruns. destruct (requested_run c); simpl; lia.
  - intros t d Hin Hname Hloads Hdom. rewrite Hruns.
    destruct (keys_bound d (required t) (required_no_dup t Hin) Hdom)
      as [Hall Hsize].
    unfold requested_run. rewrite Hname, Hloads. clear Hname Hloads Hruns.
    destruct Hin as [<-|[<-|[]]];
      cbn [required schema_name] in *; unfold dispatched_run.
    + inversion Hall as [|? ? [p Hp] _]; subst.
      exists [p]. split; [repeat constructor; exact Hp|].
      cbn [String.eqb Ascii.eqb Bool.eqb].
      rewrite Hp, Hsize. reflexivity.
    + inversion Hall as [|? ? [o Ho] Hall1]; subst.
      inversion Hall1 as [|? ? [r Hr] Hall2]; subst.
      inversion Hall2 as [|? ? [p Hp] _]; subst.
      exists [o; r; p]. split; [repeat constructor; assumption|].
      cbn [String.eqb Ascii.eqb Bool.eqb].
      rewrite Ho, Hr, Hp, Hsize. reflexivity.
  - intros Hnone. rewrite Hruns. unfold requested_run, dispatched_run.
    destruct (json_loads (function_arguments c)) as [| |d] eqn:Hloads;
      try reflexivity.
    destruct (String.eqb (function_name c) "fetch_github_file") eqn:Hf.
    + apply String.eqb_eq in Hf.
      destruct (d !! "owner") as [o|] eqn:Ho; [|reflexivity].
      destruct (d !! "repo") as [r|] eqn:Hr; [|reflexivity].
      destruct (d !! "file_path") as [p|] eqn:Hp; [|reflexivity].
      destruct (size d =? 3)%nat eqn:Hsize; [|reflexivity].
      apply Nat.eqb_eq in Hsize. exfalso. apply Hnone.
      exists (ToolSchema "function" "fetch_github_file"
                "Fetches a file from a GitHub repository. Provide owner, repo name, and file path."
                "object"
                [ParameterSchema "owner" "string" "GitHub username or org";
                 ParameterSchema "repo" "string" "Repository name";
                 ParameterSchema "file_path" "string" "Path to file in repo"]
                ["owner"; "repo"; "file_path"]), d.
      split; [right; left; reflexivity|]. split; [exact Hf|].
      split; [reflexivity|]. cbn [required].
      apply bound_keys; [|repeat constructor; eauto|exact Hsize].
      apply (bool_decide_unpack _). vm_compute. reflexivity.
    + destruct (String.eqb (function_name c) "analyze_code_quality") eqn:Ha;
        [|reflexivity].
      apply String.eqb_eq in Ha.
      destruct (d !! "file_path") as [p|] eqn:Hp; [|reflexivity].
      destruct (size d =? 1)%nat eqn:Hsize; [|reflexivity].
      apply Nat.eqb_eq in Hsize. exfalso. apply Hnone.
      exists (ToolSchema "function" "analyze_code_quality"
                "Analyzes code that was already fetched and returns metrics."
                "object"
                [ParameterSchema "file_path" "string"
                   "Path of the file to analyze (must have been fetched first)"]
                ["file_path"]), d.
      split; [left; reflexivity|]. split; [exact Ha|].
      split; [reflexivity|]. cbn [required].
      apply bound_keys; [|repeat constructor; eauto|exact Hsize].
      apply (bool_decide_unpack _). vm_compute. reflexivity.
  - intros Hf Ha.
    apply String.eqb_neq in Hf. apply String.eqb_neq in Ha.
    split; [|split].
    + rewrite Hruns. unfold requested_run, dispatched_run.
      rewrite Hf, Ha. destruct (json_loads (function_arguments c)); reflexivity.
    + intros Hdec. rewrite iteration_body_eq, Hchat. cbv beta iota zeta.
      fold st_chat. rewrite (handle_reply_tool st_chat messages a c rest Hcalls).
      unfold process_tool_call. rewrite Hf, Ha.
      destruct (json_loads (function_arguments c)); [congruence| |]; reflexivity.
    + intros Hdec. rewrite iteration_body_eq, Hchat. cbv beta iota zeta.
      fold st_chat. rewrite (handle_reply_tool st_chat messages a c rest Hcalls).
      rewrite Hdec. reflexivity.
  - intros st1 others.
    rewrite (handle_reply_tool st1 messages a c rest Hcalls).
    rewrite (handle_reply_tool st1 messages
               (AssistantMessage (content a) (Some (c :: others)))
               c others eq_refl).
    reflexivity.
Qed.


(** What one pass of the loop adds to the trace: one model call, then events
    that are no model calls; and the pass continues exactly when the reply
    requests a tool. *)
Lemma iteration_body_trace st messages :
  exists reply evs,
    trace (snd (iteration_body messages st))
    = (trace st ++ ModelCall messages reply :: evs)%list
    /\ model_calls evs = 0%nat
    /\ (forall v, fst (iteration_body messages st) = Ok (Return v) ->
          requests_tool (ModelCall messages reply) = false)
    /\ (forall m, fst (iteration_body messages st) = Ok (Continue m) ->
          requests_tool (ModelCall messages reply) = true).
Proof.
  rewrite iteration_body_eq.
  destruct (chat_completions_create messages (world st)) as [[|a] w];
    cbv beta iota zeta.
  - exists ChatRaises, []. simpl.
    split; [reflexivity|]. split; [reflexivity|]. split; discriminate.
  - set (st1 := State (file_cache st) w
                  (trace st ++ [ModelCall messages (ChatReturns a)])).
    destruct (requests_tool (ModelCall messages (ChatReturns a))) eqn:Hreq.
    + destruct a as [text [[|c rest]|]]; try discriminate.
      destruct (handle_reply_trace st1 messages
                  (AssistantMessage text (Some (c :: rest))) c rest eq_refl)
        as (evs & Ht & _ & Hm).
      exists (ChatReturns (AssistantMessage text (Some (c :: rest)))), evs.
      split; [rewrite Ht; subst st1; simpl; rewrite <- app_assoc; reflexivity|].
      split; [exact Hm|]. split; [|reflexivity].
      intros v Hv.
      rewrite (handle_reply_tool st1 messages
                 (AssistantMessage text (Some (c :: rest))) c rest eq_refl) in Hv.
      destruct (json_loads (function_arguments c));
        try discriminate;
        destruct (process_tool_call _ _ st1) as [[result|e] st2];
        discriminate.
    + rewrite (handle_reply_final st1 messages a Hreq).
      exists (ChatReturns a), []. rewrite Hreq. simpl.
      split; [reflexivity|]. split; [reflexivity|].
      split; [reflexivity|discriminate].
Qed.

(** The loop ends when the fuel covers the passes that remain; it calls the
    model once per pass; and it returns the sentinel when it ends normally
    with every reply requesting a tool. *)
Lemma agent_loop_bounded fuel : forall iteration messages st,
  (max_iterations <= fuel + iteration)%nat ->
  exists r st' evs,
    agent_loop fuel iteration messages st = Some (r, st')
    /\ trace st' = (trace st ++ evs)%list
    /\ (model_calls evs <= max_iterations - iteration)%nat
    /\ (forall v, r = Ok v ->
          forallb requests_tool (List.filter is_model_call evs) = true ->
          model_calls evs = (max_iterations - iteration)%nat
          /\ v = Some "Max iterations reached").
Proof.
  induction fuel as [|fuel IH]; intros iteration messages st Hfuel.
  - simpl. destruct (iteration <? max_iterations)%nat eqn:Hlt.
    + apply Nat.ltb_lt in Hlt. lia.
    + apply Nat.ltb_ge in Hlt.
      exists (Ok (Some "Max iterations reached")), st, [].
      rewrite app_nil_r. split; [reflexivity|]. split; [reflexivity|].
      split; [unfold model_calls; simpl; lia|].
      intros v Hv _. injection Hv as <-.
      split; [unfold model_calls; simpl; lia|reflexivity].
  - cbn [agent_loop]. destruct (iteration <? max_iterations)%nat eqn:Hlt.
    + apply Nat.ltb_lt in Hlt.
      destruct (iteration_body_trace st messages)
        as (reply & evs1 & Ht1 & Hm1 & Hret & Hcont).
      destruct (iteration_body messages st) as [[[v|m]|e] st1];
        simpl in Ht1, Hret, Hcont.
      * exists (Ok v), st1, (ModelCall messages reply :: evs1).
        split; [reflexivity|]. split; [exact Ht1|].
        change (ModelCall messages reply :: evs1)
          with ([ModelCall messages reply] ++ evs1)%list.
        rewrite model_calls_app, Hm1.
        split; [unfold model_calls; simpl; lia|].
        intros v' _ Hall. exfalso.
        rewrite List.filter_app in Hall. simpl in Hall.
        rewrite (Hret v eq_refl) in Hall. discriminate.
      * destruct (IH (S iteration) m st1 ltac:(lia))
          as (r & st' & evs2 & Hloop & Ht2 & Hm2 & Hsent).
        exists r, st', ((ModelCall messages reply :: evs1) ++ evs2)%list.
        split; [exact Hloop|].
        split; [rewrite Ht2, Ht1, <- app_assoc; reflexivity|].
        change (ModelCall messages reply :: evs1)
          with ([ModelCall messages reply] ++ evs1)%list.
        rewrite !model_calls_app, Hm1.
        split; [unfold model_calls at 1; simpl; lia|].
        intros v Hv Hall.
        rewrite !List.filter_app, !forallb_app in Hall.
        apply andb_prop in Hall as [_ Hall2].
        destruct (Hsent v Hv Hall2) as [Hn Hs].
        split; [unfold model_calls at 1; simpl; lia|exact Hs].
      * exists (Raise e), st1, (ModelCall messages reply :: evs1).
        split; [reflexivity|]. split; [exact Ht1|].
        change (ModelCall messages reply :: evs1)
          with ([ModelCall messages reply] ++ evs1)%list.
        rewrite model_calls_app, Hm1.
        split; [unfold model_calls; simpl; lia|].
        intros v Hv. discriminate.
    + apply Nat.ltb_ge in Hlt.
      exists (Ok (Some "Max iterations reached")), st, [].
      rewrite app_nil_r. split; [reflexivity|]. split; [reflexivity|].
      split; [unfold model_calls; simpl; lia|].
      intros v Hv _. injection Hv as <-.
      split; [unfold model_calls; simpl; lia|reflexivity].
Qed.


End LoopProperties.

(** ** Concrete runs *)

Import Demo Runs.

(** C1 at a fresh process: nothing is cached, and the analysis of
    [src/core.js] is the error dict. *)
Lemma analyze_unfetched_is_error_witness :
  file_cache (fresh nowhere) !! core_js = None
  /\ analyze_code_quality core_js (fresh nowhere)
     = (Ok (PDict [("error",
                    PStr "File not fetched yet. Call fetch_github_file first.")]),
        State ∅ nowhere [ToolRun "analyze_code_quality" [core_js]]).
Proof.
  split; [reflexivity|].
  apply (analyze_unfetched_is_error (fresh nowhere) core_js). reflexivity.
Defined.

(** C2 when [main] answers 404 and [master] answers 200 with nine
    characters. *)
Lemma fetch_success_roundtrip_witness :
  fst (fetch_github_file "jquery" "jquery" core_js (fresh on_master))
  = Ok (PDict [("success", PBool true); ("file_path", PStr core_js);
               ("size", PInt 9)])
  /\ file_cache (snd (fetch_github_file "jquery" "jquery" core_js
                        (fresh on_master))) !! core_js
     = Some "let x = 1"
  /\ (master_url = branch_url "jquery" "jquery" "main" core_js
      \/ master_url = branch_url "jquery" "jquery" "master" core_js).
Proof.
  apply (fetch_success_roundtrip (fresh on_master) "jquery" "jquery" core_js
           _ _ master_url "let x = 1").
  - reflexivity.
  - vm_compute. right. right. left. reflexivity.
Defined.

(** C3, as the script has it, when both branches answer 404. *)
Lemma fetch_not_found_keeps_cache_witness :
  let '(r, st') :=
    fetch_github_file "jquery" "jquery" core_js (fresh nowhere) in
  r = Ok (PDict [("success", PBool false); ("error", PStr "File not found")])
  /\ events_since (fresh nowhere) st'
     = [ToolRun "fetch_github_file" ["jquery"; "jquery"; core_js];
        HttpGet (branch_url "jquery" "jquery" "main" core_js)
          (HttpReturns not_found);
        HttpGet (branch_url "jquery" "jquery" "master" core_js)
          (HttpReturns not_found)]
  /\ file_cache st' = file_cache (fresh nowhere)
  /\ (file_cache (fresh nowhere) !! core_js = None ->
      file_cache st' !! core_js = None).
Proof.
  apply (fetch_not_found_keeps_cache (fresh nowhere) "jquery" "jquery" core_js
           not_found (Scripted [(master_url, not_found)] [])
           not_found (Scripted [] [])).
  - reflexivity.
  - simpl. lia.
  - reflexivity.
  - simpl. lia.
Defined.

(** C3 as stated fails: after a fetch that stored [src/core.js], a second
    fetch of the same path finds neither branch (both answer 404), returns
    the failure dict, and the path still has its cache entry. *)
Lemma failed_fetch_leaves_stale_entry :
  let st1 :=
    snd (fetch_github_file "jquery" "jquery" core_js (fresh removed_later)) in
  let st2 := snd (fetch_github_file "jquery" "jquery" core_js st1) in
  fst (fetch_github_file "jquery" "jquery" core_js st1) = Ok fetch_failure
  /\ events_since st1 st2
     = [ToolRun "fetch_github_file" ["jquery"; "jquery"; core_js];
        HttpGet main_url (HttpReturns (HttpResponse 404 "404: Not Found"));
        HttpGet master_url (HttpReturns (HttpResponse 404 "404: Not Found"))]
  /\ file_cache st2 !! core_js = Some "var jQuery;"
  /\ file_cache st2 !! core_js <> None.
Proof.
  vm_compute. repeat split; discriminate.
Qed.

(** C4, as the script has it, when one reply requests an analysis and then a
    fetch: the analysis runs and the fetch does not. *)
Lemma one_tool_run_per_iteration_witness :
  tool_runs (events_since (cached core_js one_liner two_requests)
               (snd (iteration_body question
                       (cached core_js one_liner two_requests))))
  = [ToolRun "analyze_code_quality" [core_js]].
Proof.
  assert (Hchat : chat_completions_create question
                    (world (cached core_js one_liner two_requests))
                  = (ChatReturns
                       (AssistantMessage None (Some [analyze_call; fetch_call])),
                     Scripted [] [])) by reflexivity.
  destruct (one_tool_run_per_iteration
              (cached core_js one_liner two_requests) question
              (AssistantMessage None (Some [analyze_call; fetch_call]))
              (Scripted [] []) analyze_call [fetch_call] Hchat eq_refl)
    as (Hruns & _).
  rewrite Hruns. reflexivity.
Defined.

(** C4 as stated fails: the reply requests one invocation, of a tool that the
    dispatcher does not know; the iteration completes, and no tool was
    executed in it. *)
Lemma unknown_request_runs_no_tool :
  chat_completions_create question (world (fresh unknown_request))
  = (ChatReturns (AssistantMessage None (Some [unknown_call])),
     Scripted [] [])
  /\ fst (iteration_body question (fresh unknown_request))
     = Ok (Continue
             (question
              ++ [AssistantCalls EmptyString
                    [ToolCallEntry "call_1" "function" "run_tests" "{}"];
                  ToolMessage "call_1" "null"]))
  /\ tool_runs (events_since (fresh unknown_request)
                  (snd (iteration_body question (fresh unknown_request))))
     = []
  /\ List.length
       (tool_runs (events_since (fresh unknown_request)
                     (snd (iteration_body question (fresh unknown_request)))))
     <> 1%nat.
Proof.
  vm_compute. repeat split; discriminate.
Qed.



(** C8 on the one-line text of the scenario. *)
Lemma analyze_estimates_functions_witness :
  file_cache (cached core_js one_liner nowhere) !! core_js = Some one_liner
  /\ analyze_code_quality core_js (cached core_js one_liner nowhere)
     = (Ok (PDict
              [("file_path", PStr core_js);
               ("total_lines", PInt 1);
               ("code_lines", PInt 1);
               ("estimated_functions", PInt 3);
               ("note", PStr "Metrics calculated from cached file.")]),
        State (<[core_js := one_liner]> ∅) nowhere
          [ToolRun "analyze_code_quality" [core_js]]).
Proof.
  split; [reflexivity|].
  destruct (analyze_estimates_functions (cached core_js one_liner nowhere)
              core_js one_liner eq_refl) as (_ & _ & Hscenario).
  apply Hscenario. reflexivity.
Defined.

(** C9 for the tool name [run_tests]. *)
Lemma unknown_tool_returns_none_witness :
  "run_tests" <> "fetch_github_file"
  /\ "run_tests" <> "analyze_code_quality"
  /\ process_tool_call "run_tests" (Dict ∅) (cached core_js one_liner on_master)
     = (Ok PNone, cached core_js one_liner on_master).
Proof.
  assert (H1 : "run_tests" <> "fetch_github_file") by discriminate.
  assert (H2 : "run_tests" <> "analyze_code_quality") by discriminate.
  split; [exact H1|]. split; [exact H2|].
  apply (unknown_tool_returns_none _ "run_tests" (Dict ∅) H1 H2).
Defined.

(** A run in which the model never stops requesting tools: ten round-trips,
    then the sentinel, though the model had more replies to give. *)
Example run_agent_exhausts :
  exists st',
    run_agent "Analyze src/core.js" (fresh (insistent 12))
    = Some (Ok (Some "Max iterations reached"), st')
    /\ model_calls (trace st') = 10%nat
    /\ List.length (chat_script (world st')) = 2%nat.
Proof.
  eexists. split; [vm_compute; reflexivity|]. split; reflexivity.
Qed.

(** A run that fetches, analyses and answers in three round-trips. *)
Example run_agent_answers :
  fst <$> run_agent "Analyze src/core.js"
            (fresh (Scripted (http_script on_master)
                      [AssistantMessage None (Some [fetch_call]);
                       AssistantMessage None (Some [analyze_call]);
                       AssistantMessage (Some "Score: 7/10") None]))
  = Some (Ok (Some "Score: 7/10")).
Proof. vm_compute. reflexivity. Qed.

(** * Further properties of the script *)

(** ** Remote fetch: requests, cache frame, composition with the analysis *)

Section FetchFurther.

Context {World : Type} {env : Environment World}.

Implicit Types (st : state World) (owner repo path : string).

(** X1.  A call of [fetch_github_file] makes one request, to the [main]
    address, and a second one, to the [master] address, exactly when the
    first was answered with a status other than 200; it makes none after a
    request that raised, and never a third. *)
Theorem fetch_request_protocol st owner repo path :
  exists r1 rest,
    r1 = fst (requests_get (branch_url owner repo "main" path) (world st))
    /\ events_since st (snd (fetch_github_file owner repo path st))
       = ToolRun "fetch_github_file" [owner; repo; path]
         :: HttpGet (branch_url owner repo "main" path) r1 :: rest
    /\ ((exists resp r2,
           r1 = HttpReturns resp /\ status_code resp <> 200%Z
           /\ rest = [HttpGet (branch_url owner repo "master" path) r2])
        \/ ((r1 = HttpRaises
             \/ exists resp, r1 = HttpReturns resp /\ status_code resp = 200%Z)
            /\ rest = [])).
Proof.
  destruct (fetch_github_file_outcome st owner repo path)
    as [r1 w1 Hg1 Hs1 | r1 w1 r2 w2 Hg1 Hs1 Hg2 Hs2
       | r1 w1 r2 w2 Hg1 Hs1 Hg2 Hs2 | w1 Hg1 | r1 w1 w2 Hg1 Hs1 Hg2];
    rewrite Hg1; unfold events_since; cbn [trace fst];
    rewrite drop_app_length.
  - exists (HttpReturns r1), []. split; [reflexivity|]. split; [reflexivity|].
    right. split; [right; exists r1; auto|reflexivity].
  - exists (HttpReturns r1), [HttpGet (branch_url owner repo "master" path)
                                 (HttpReturns r2)].
    split; [reflexivity|]. split; [reflexivity|].
    left. exists r1, (HttpReturns r2). auto.
  - exists (HttpReturns r1), [HttpGet (branch_url owner repo "master" path)
                                 (HttpReturns r2)].
    split; [reflexivity|]. split; [reflexivity|].
    left. exists r1, (HttpReturns r2). auto.
  - exists HttpRaises, []. split; [reflexivity|]. split; [reflexivity|].
    right. split; [left; reflexivity|reflexivity].
  - exists (HttpReturns r1), [HttpGet (branch_url owner repo "master" path)
                                 HttpRaises].
    split; [reflexivity|]. split; [reflexivity|].
    left. exists r1, HttpRaises. auto.
Qed.

(** X2.  Whatever a fetch of [path] does (success, not found, exception), the
    cache entry of every other path is what it was: nothing else is
    overwritten and nothing is evicted. *)
Theorem fetch_changes_only_its_path st owner repo path other :
  other <> path ->
  file_cache (snd (fetch_github_file owner repo path st)) !! other
  = file_cache st !! other.
Proof.
  intros Hne.
  destruct (fetch_github_file_outcome st owner repo path); cbn [file_cache];
    try reflexivity; apply lookup_insert_ne; congruence.
Qed.


(** X4.  Fetch and analysis compose: after a fetch of [path] that returns
    anything but the failure dict, the result is the success dict of some
    body, and the analysis of [path] returns the metrics of that body, not
    the error dict. *)
Theorem fetch_then_analyze st owner repo path v st1 :
  fetch_github_file owner repo path st = (Ok v, st1) ->
  v <> fetch_failure ->
  exists body,
    v = fetch_success path body
    /\ fst (analyze_code_quality path st1)
       = Ok (metrics path
               (Z.of_nat (List.length (PyStr.split newline body)))
               (Z.of_nat (List.length
                  (List.filter is_code_line (PyStr.split newline body))))
               (PyStr.count "function " body + PyStr.count "def " body
                + PyStr.count "const " body + PyStr.count "let " body))
    /\ file_cache (snd (analyze_code_quality path st1)) !! path = Some body.
Proof.
  intros Hrun Hv.
  pose proof (fetch_github_file_outcome st owner repo path) as Hout.
  rewrite Hrun in Hout. cbn [fst snd] in Hout.
  inversion Hout as [r1 w1 Hg1 Hs1 | r1 w1 r2 w2 Hg1 Hs1 Hg2 Hs2
                    | r1 w1 r2 w2 Hg1 Hs1 Hg2 Hs2 | w1 Hg1
                    | r1 w1 w2 Hg1 Hs1 Hg2]; subst; try congruence;
    eexists; (split; [reflexivity|]);
    rewrite analyze_code_quality_eq; cbn [fst snd file_cache];
    rewrite lookup_insert_eq; split; reflexivity.
Qed.

End FetchFurther.

(** ** The metrics *)

Lemma split_length sep s :
  List.length (PyStr.split sep s) = S (count_char sep s).
Proof.
  induction s as [|c s IH]; [reflexivity|].
  cbn [PyStr.split count_char]. rewrite (Ascii.eqb_sym sep c).
  destruct (Ascii.eqb c sep).
  - simpl. rewrite IH. reflexivity.
  - pose proof (split_not_nil sep s) as Hne.
    destruct (PyStr.split sep s) as [|p ps]; [congruence|].
    simpl in *. exact IH.
Qed.

Lemma count_char_le a s : (count_char a s <= String.length s)%nat.
Proof.
  induction s as [|b s IH]; simpl; [lia|].
  destruct (Ascii.eqb a b); lia.
Qed.

(** The four tokens begin with four different characters, so at most one of
    them occurs at a position. *)
Ltac split_ifs :=
  repeat match goal with
         | |- context [if ?b then _ else _] => destruct b
         end.

Lemma token_occurrences_le s :
  (occurrences "function " s + occurrences "def " s
   + occurrences "const " s + occurrences "let " s <= String.length s)%nat.
Proof.
  induction s as [|c s IH]; [simpl; lia|].
  cbn [occurrences String.length].
  assert (Hone : ((if PyStr.startswith "function " (String c s) then 1 else 0)
                  + (if PyStr.startswith "def " (String c s) then 1 else 0)
                  + (if PyStr.startswith "const " (String c s) then 1 else 0)
                  + (if PyStr.startswith "let " (String c s) then 1 else 0)
                  <= 1)%nat).
  { cbn [PyStr.startswith].
    destruct (Ascii.eqb_spec "f" c) as [<-|Hf];
      [simpl; split_ifs; lia|].
    destruct (Ascii.eqb_spec "d" c) as [<-|Hd];
      [simpl; split_ifs; lia|].
    destruct (Ascii.eqb_spec "c" c) as [<-|Hc];
      [simpl; split_ifs; lia|].
    simpl. split_ifs; lia. }
  lia.
Qed.

Section MetricsFurther.

Context {World : Type} {env : Environment World}.

Implicit Types (st : state World) (path code : string).

(** X5.  The metrics of a cached text are consistent: [total_lines] is one
    more than the number of newline characters (so at least 1, also for the
    empty text, and a final newline counts one more, blank, line);
    [code_lines] lies between 0 and [total_lines]; [estimated_functions]
    lies between 0 and the length of the text. *)
Theorem analyze_metrics_consistent st path code :
  file_cache st !! path = Some code ->
  exists total_lines code_lines functions,
    fst (analyze_code_quality path st)
    = Ok (metrics path total_lines code_lines functions)
    /\ total_lines = (1 + Z.of_nat (count_char newline code))%Z
    /\ (0 <= code_lines <= total_lines)%Z
    /\ (0 <= functions <= PyStr.len code)%Z.
Proof.
  intros Hcode. rewrite analyze_code_quality_eq, Hcode. cbn [fst].
  eexists _, _, _. split; [reflexivity|].
  rewrite split_length.
  split; [lia|]. split.
  - pose proof (List.filter_length_le is_code_line (PyStr.split newline code))
      as Hle.
    rewrite split_length in Hle. lia.
  - rewrite !count_occurrences by reflexivity.
    pose proof (token_occurrences_le code). unfold PyStr.len. lia.
Qed.

End MetricsFurther.

Lemma rstrip_all_space ws : all_space ws = true -> PyStr.rstrip ws = EmptyString.
Proof.
  induction ws as [|c ws IH]; intros H; [reflexivity|].
  simpl in H. apply andb_prop in H as [Hc H].
  simpl. rewrite (IH H), Hc. reflexivity.
Qed.

Lemma rstrip_app_space s ws :
  all_space ws = true -> PyStr.rstrip (s ++ ws) = PyStr.rstrip s.
Proof.
  intros H. induction s as [|c s IH]; simpl.
  - apply rstrip_all_space, H.
  - rewrite IH. reflexivity.
Qed.

Lemma strip_space_app ws s :
  all_space ws = true -> PyStr.strip (ws ++ s) = PyStr.strip s.
Proof.
  unfold PyStr.strip. induction ws as [|c ws IH]; intros H; [reflexivity|].
  simpl in H. apply andb_prop in H as [Hc H]. specialize (IH H).
  change (String c ws ++ s) with (String c (ws ++ s)).
  change (PyStr.rstrip (String c (ws ++ s)))
    with (match PyStr.rstrip (ws ++ s) with
          | EmptyString =>
              if PyStr.is_space c then EmptyString else String c EmptyString
          | String d r => String c (String d r)
          end).
  destruct (PyStr.rstrip (ws ++ s)) as [|d r] eqn:Hr.
  - rewrite Hc. exact IH.
  - cbn [PyStr.lstrip]. rewrite Hc. exact IH.
Qed.

(** X6.  Indentation and trailing blanks do not change what a line counts
    as: with whitespace added before and after, a line is a code line
    exactly when it was one. *)
Theorem code_line_ignores_indentation ws1 ws2 l :
  all_space ws1 = true -> all_space ws2 = true ->
  PyStr.strip (ws1 ++ l ++ ws2) = PyStr.strip l
  /\ is_code_line (ws1 ++ l ++ ws2) = is_code_line l.
Proof.
  intros H1 H2.
  assert (Hs : PyStr.strip (ws1 ++ l ++ ws2) = PyStr.strip l).
  { rewrite (strip_space_app ws1 _ H1). unfold PyStr.strip.
    rewrite (rstrip_app_space l ws2 H2). reflexivity. }
  split; [exact Hs|]. unfold is_code_line. rewrite Hs. reflexivity.
Qed.

(** ** The schema and the dispatcher *)

Section DispatcherFurther.

Context {World : Type} {env : Environment World}.

Implicit Types (st : state World) (d : gmap string string).

(** X7.  The schema sent to the model and the dispatcher agree.  Every
    declared parameter of a tool of [tools] is required; and for a tool of
    [tools] and a dict whose keys are that tool's required parameters,
    [process_tool_call] enters the body of the tool of that name, once, with
    the values of the dict in the order of the parameters. *)
Theorem schema_matches_dispatcher st t d :
  In t tools ->
  dom d = (list_to_set (required t) : gset string) ->
  List.map parameter_name (properties t) = required t
  /\ exists args,
       Forall2 (fun k v => d !! k = Some v) (required t) args
       /\ tool_runs (events_since st
                       (snd (process_tool_call (schema_name t) (Dict d) st)))
          = [ToolRun (schema_name t) args].
Proof.
  intros Hin Hdom.
  destruct (keys_bound d (required t) (required_no_dup t Hin) Hdom)
    as [Hall Hsize].
  destruct (process_tool_call_trace st (schema_name t) (Dict d))
    as (evs & Ht & Hruns & _).
  rewrite (events_since_app _ _ _ Ht), Hruns. clear Ht Hruns.
  destruct Hin as [<-|[<-|[]]]; (split; [reflexivity|]);
    cbn [required schema_name] in *; unfold dispatched_run.
  - inversion Hall as [|? ? [p Hp] _]; subst.
    exists [p]. split; [repeat constructor; exact Hp|].
    cbn [String.eqb Ascii.eqb Bool.eqb].
    rewrite Hp, Hsize. reflexivity.
  - inversion Hall as [|? ? [o Ho] Hall1]; subst.
    inversion Hall1 as [|? ? [r Hr] Hall2]; subst.
    inversion Hall2 as [|? ? [p Hp] _]; subst.
    exists [o; r; p]. split; [repeat constructor; assumption|].
    cbn [String.eqb Ascii.eqb Bool.eqb].
    rewrite Ho, Hr, Hp, Hsize. reflexivity.
Qed.

(** X8.  For a tool of [tools], decoded arguments that are no dict, or a dict
    whose keys are not exactly the tool's parameters (one missing, one too
    many), make [process_tool_call] raise [TypeError]; the tool body is not
    entered and nothing changes. *)
Theorem wrong_arguments_raise_type_error st t tool_input :
  In t tools ->
  tool_input = NotADict
  \/ (exists d, tool_input = Dict d
                /\ dom d <> (list_to_set (required t) : gset string)) ->
  process_tool_call (schema_name t) tool_input st = (Raise TypeError, st).
Proof.
  intros Hin Hbad.
  pose proof (required_no_dup t Hin) as Hnd.
  destruct Hin as [<-|[<-|[]]]; cbn [required schema_name] in *;
    unfold process_tool_call; cbn [String.eqb Ascii.eqb Bool.eqb];
    unfold call_analyze_code_quality, call_fetch_github_file;
    (destruct Hbad as [->|(d & -> & Hdom)]; [reflexivity|]).
  - destruct (d !! "file_path") as [p|] eqn:Hp; [|reflexivity].
    destruct (size d =? 1)%nat eqn:Hsize; [|reflexivity].
    apply Nat.eqb_eq in Hsize. exfalso. apply Hdom.
    apply (bound_keys d ["file_path"] Hnd); [|exact Hsize].
    repeat constructor. rewrite Hp. eauto.
  - destruct (d !! "owner") as [o|] eqn:Ho; [|reflexivity].
    destruct (d !! "repo") as [r|] eqn:Hr; [|reflexivity].
    destruct (d !! "file_path") as [p|] eqn:Hp; [|reflexivity].
    destruct (size d =? 3)%nat eqn:Hsize; [|reflexivity].
    apply Nat.eqb_eq in Hsize. exfalso. apply Hdom.
    apply (bound_keys d ["owner"; "repo"; "file_path"] Hnd); [|exact Hsize].
    repeat constructor; [rewrite Ho|rewrite Hr|rewrite Hp]; eauto.
Qed.

End DispatcherFurther.

(** ** The loop, pass by pass *)

Lemma cache_step_refl c evs : cache_step c c evs.
Proof.
  split; [auto|]. split; [auto|]. reflexivity.
Qed.

Lemma cache_step_trans c c1 c2 evs1 evs2 :
  cache_step c c1 evs1 -> cache_step c1 c2 evs2 ->
  cache_step c c2 (evs1 ++ evs2).
Proof.
  intros (Hk1 & Hp1 & Hf1) (Hk2 & Hp2 & Hf2). split; [|split].
  - intros p Hp. apply Hk2, Hk1, Hp.
  - intros p body Hb.
    destruct (Hp2 p body Hb) as [Hb1|(url & Hin)].
    + destruct (Hp1 p body Hb1) as [Hb0|(url & Hin)]; [left; exact Hb0|].
      right. exists url. apply in_or_app. left. exact Hin.
    + right. exists url. apply in_or_app. right. exact Hin.
  - intros p Hno.
    rewrite Hf2, Hf1; [reflexivity| |];
      intros owner repo Hin; apply (Hno owner repo), in_or_app; auto.
Qed.

Lemma cache_step_insert c p body owner repo url evs :
  In (ToolRun "fetch_github_file" [owner; repo; p]) evs ->
  In (HttpGet url (HttpReturns (HttpResponse 200 body))) evs ->
  cache_step c (<[p := body]> c) evs.
Proof.
  intros Hrun Hget. split; [|split].
  - intros q Hq. destruct (decide (p = q)) as [<-|Hne].
    + rewrite lookup_insert_eq. eauto.
    + rewrite lookup_insert_ne by exact Hne. exact Hq.
  - intros q b Hb. destruct (decide (p = q)) as [<-|Hne].
    + rewrite lookup_insert_eq in Hb. injection Hb as <-. right. eauto.
    + rewrite lookup_insert_ne in Hb by exact Hne. left. exact Hb.
  - intros q Hno. destruct (decide (p = q)) as [<-|Hne].
    + exfalso. exact (Hno owner repo Hrun).
    + apply lookup_insert_ne, Hne.
Qed.

Section LoopFurther.

Context {World : Type} {env : Environment World}.

Implicit Types (st : state World) (messages : list message).

(** What a fetch adds to the trace and does to the cache. *)
Lemma fetch_github_file_summary st owner repo path :
  exists evs,
    trace (snd (fetch_github_file owner repo path st))
    = (trace st ++ evs)%list
    /\ model_events evs = []
    /\ List.length (tool_runs evs) = 1%nat
    /\ (List.length (http_gets evs) <= 2)%nat
    /\ cache_step (file_cache st)
         (file_cache (snd (fetch_github_file owner repo path st))) evs.
Proof.
  destruct (fetch_github_file_outcome st owner repo path)
    as [r1 w1 Hg1 Hs1 | r1 w1 r2 w2 Hg1 Hs1 Hg2 Hs2
       | r1 w1 r2 w2 Hg1 Hs1 Hg2 Hs2 | w1 Hg1 | r1 w1 w2 Hg1 Hs1 Hg2];
    eexists; (split; [reflexivity|]); (split; [reflexivity|]);
    (split; [reflexivity|]); (split; [simpl; lia|]); cbn [file_cache];
    try apply cache_step_refl.
  - destruct r1 as [s1 t1]; simpl in *; subst s1.
    eapply cache_step_insert; simpl; eauto.
  - destruct r2 as [s2 t2]; simpl in *; subst s2.
    eapply cache_step_insert; simpl; eauto.
Qed.

(** What a dispatch adds to the trace and does to the cache. *)
Lemma process_tool_call_summary st tool_name tool_input :
  exists evs,
    trace (snd (process_tool_call tool_name tool_input st))
    = (trace st ++ evs)%list
    /\ model_events evs = []
    /\ (List.length (tool_runs evs) <= 1)%nat
    /\ (List.length (http_gets evs) <= 2 * List.length (tool_runs evs))%nat
    /\ cache_step (file_cache st)
         (file_cache (snd (process_tool_call tool_name tool_input st))) evs.
Proof.
  assert (Hnone : exists evs : list event,
            trace st = (trace st ++ evs)%list
            /\ model_events evs = []
            /\ (List.length (tool_runs evs) <= 1)%nat
            /\ (List.length (http_gets evs) <= 2 * List.length (tool_runs evs))%nat
            /\ cache_step (file_cache st) (file_cache st) evs).
  { exists []. rewrite app_nil_r. repeat split; simpl; auto. }
  unfold process_tool_call.
  destruct (String.eqb tool_name "fetch_github_file").
  - unfold call_fetch_github_file.
    destruct tool_input as [| |d]; try exact Hnone.
    destruct (d !! "owner") as [owner|]; [|exact Hnone].
    destruct (d !! "repo") as [repo|]; [|exact Hnone].
    destruct (d !! "file_path") as [path|]; [|exact Hnone].
    destruct (size d =? 3)%nat; [|exact Hnone].
    destruct (fetch_github_file_summary st owner repo path)
      as (evs & Ht & Hm & Hr & Hh & Hc).
    exists evs. rewrite Hr. repeat split; try assumption; try lia; apply Hc.
  - destruct (String.eqb tool_name "analyze_code_quality").
    + unfold call_analyze_code_quality.
      destruct tool_input as [| |d]; try exact Hnone.
      destruct (d !! "file_path") as [path|]; [|exact Hnone].
      destruct (size d =? 1)%nat; [|exact Hnone].
      rewrite analyze_code_quality_eq. cbn [snd trace file_cache].
      eexists. split; [reflexivity|]. repeat split; simpl; auto.
    + exact Hnone.
Qed.

(** A pass that ends the loop: the reply requested no tool, and its text is
    the answer. *)
Lemma iteration_return_inv st messages v st1 :
  iteration_body messages st = (Ok (Return v), st1) ->
  exists a w,
    chat_completions_create messages (world st) = (ChatReturns a, w)
    /\ requests_tool (ModelCall messages (ChatReturns a)) = false
    /\ v = content a
    /\ st1 = State (file_cache st) w
               (trace st ++ [ModelCall messages (ChatReturns a)]).
Proof.
  rewrite iteration_body_eq.
  destruct (chat_completions_create messages (world st)) as [[|a] w];
    cbv beta iota zeta; [discriminate|].
  intros H. exists a, w. split; [reflexivity|].
  destruct (requests_tool (ModelCall messages (ChatReturns a))) eqn:Hreq.
  - exfalso. destruct a as [text [[|c rest]|]]; try discriminate.
    rewrite (handle_reply_tool _ messages
               (AssistantMessage text (Some (c :: rest))) c rest eq_refl) in H.
    destruct (json_loads (function_arguments c)); try discriminate;
      destruct (process_tool_call _ _ _) as [[result|e] st2]; discriminate.
  - rewrite (handle_reply_final _ messages a Hreq) in H.
    injection H as <- <-. repeat split; reflexivity.
Qed.

(** A pass that continues the loop: the first invocation was dispatched to a
    result, and two messages were appended. *)
Lemma iteration_continue_inv st messages messages' st1 :
  iteration_body messages st = (Ok (Continue messages'), st1) ->
  exists a w c rest result,
    chat_completions_create messages (world st) = (ChatReturns a, w)
    /\ tool_calls a = Some (c :: rest)
    /\ process_tool_call (function_name c)
         (json_loads (function_arguments c))
         (State (file_cache st) w
            (trace st ++ [ModelCall messages (ChatReturns a)]))
       = (Ok result, st1)
    /\ messages'
       = (messages
          ++ [AssistantCalls EmptyString [entry_of c];
              ToolMessage (call_id c) (Json.dumps result)])%list.
Proof.
  rewrite iteration_body_eq.
  destruct (chat_completions_create messages (world st)) as [[|a] w];
    cbv beta iota zeta; [discriminate|].
  intros H.
  destruct (requests_tool (ModelCall messages (ChatReturns a))) eqn:Hreq.
  - destruct a as [text [[|c rest]|]]; try discriminate.
    rewrite (handle_reply_tool _ messages
               (AssistantMessage text (Some (c :: rest))) c rest eq_refl) in H.
    exists (AssistantMessage text (Some (c :: rest))), w, c, rest.
    destruct (json_loads (function_arguments c)); try discriminate;
      destruct (process_tool_call _ _ _) as [[result|e] st2];
      try discriminate; injection H as <- <-; exists result;
      repeat split; reflexivity.
  - rewrite (handle_reply_final _ messages a Hreq) in H. discriminate.
Qed.

(** What one pass adds to the trace and does to the cache. *)
Lemma iteration_body_summary st messages :
  exists reply evs,
    trace (snd (iteration_body messages st))
    = (trace st ++ ModelCall messages reply :: evs)%list
    /\ model_events evs = []
    /\ (List.length (tool_runs evs) <= 1)%nat
    /\ (List.length (http_gets evs) <= 2 * List.length (tool_runs evs))%nat
    /\ cache_step (file_cache st)
         (file_cache (snd (iteration_body messages st))) evs.
Proof.
  assert (Hnil : forall c : gmap string string,
            model_events [] = []
            /\ (List.length (tool_runs []) <= 1)%nat
            /\ (List.length (http_gets [])
                <= 2 * List.length (tool_runs []))%nat
            /\ cache_step c c []).
  { intros c. repeat split; simpl; auto. }
  rewrite iteration_body_eq.
  destruct (chat_completions_create messages (world st)) as [[|a] w];
    cbv beta iota zeta.
  - exists ChatRaises, []. split; [reflexivity|]. apply Hnil.
  - exists (ChatReturns a).
    set (st0 := State (file_cache st) w
                  (trace st ++ [ModelCall messages (ChatReturns a)])).
    destruct (requests_tool (ModelCall messages (ChatReturns a))) eqn:Hreq.
    + destruct a as [text [[|c rest]|]]; try discriminate.
      rewrite (handle_reply_tool st0 messages
                 (AssistantMessage text (Some (c :: rest))) c rest eq_refl).
      pose proof (process_tool_call_summary st0 (function_name c)
                    (json_loads (function_arguments c))) as Hp.
      assert (Hst0 : forall evs,
                (trace st0 ++ evs
                 = trace st
                   ++ ModelCall messages
                        (ChatReturns
                           (AssistantMessage text (Some (c :: rest))))
                      :: evs)%list).
      { intros evs. subst st0. cbn [trace]. rewrite <- app_assoc. reflexivity. }
      destruct (json_loads (function_arguments c)) as [| |d].
      * exists []. split; [rewrite <- Hst0, app_nil_r; reflexivity|].
        apply Hnil.
      * destruct Hp as (evs & Ht & Hrest). exists evs.
        destruct (process_tool_call _ NotADict st0) as [[result|e] st2];
          cbn [snd] in *; (split; [rewrite Ht; apply Hst0|exact Hrest]).
      * destruct Hp as (evs & Ht & Hrest). exists evs.
        destruct (process_tool_call _ (Dict d) st0) as [[result|e] st2];
          cbn [snd] in *; (split; [rewrite Ht; apply Hst0|exact Hrest]).
    + rewrite (handle_reply_final st0 messages a Hreq).
      exists []. split; [reflexivity|]. apply Hnil.
Qed.

(** The recursion computes a run of the loop. *)
Lemma agent_loop_run fuel : forall iteration messages st r st',
  agent_loop fuel iteration messages st = Some (r, st') ->
  loop_run iteration messages st r st'.
Proof.
  induction fuel as [|fuel IH]; intros iteration messages st r st' H;
    cbn [agent_loop] in H;
    destruct (iteration <? max_iterations)%nat eqn:Hlt;
    try discriminate;
    try (apply Nat.ltb_ge in Hlt; injection H as <- <-;
         apply LoopExhausted; exact Hlt).
  apply Nat.ltb_lt in Hlt.
  destruct (iteration_body messages st) as [[[v|m]|e] st1] eqn:Hbody.
  - injection H as <- <-. apply LoopReturn; assumption.
  - eapply LoopContinue; [exact Hlt|exact Hbody|]. apply IH, H.
  - injection H as <- <-. apply LoopRaise; assumption.
Qed.

(** Every call of [run_agent] is a run of the loop from pass 0. *)
Lemma run_agent_run st user_message :
  exists r st',
    run_agent user_message st = Some (r, st')
    /\ loop_run 0 (initial_messages user_message) st r st'.
Proof.
  destruct (agent_loop_bounded max_iterations 0 (initial_messages user_message)
              st ltac:(lia)) as (r & st' & evs & Hrun & _).
  exists r, st'. split; [exact Hrun|]. apply (agent_loop_run _ _ _ _ _ _ Hrun).
Qed.

End LoopFurther.

(** ** Whole runs *)

Lemma model_events_app evs1 evs2 :
  model_events (evs1 ++ evs2) = (model_events evs1 ++ model_events evs2)%list.
Proof. apply List.filter_app. Qed.

Lemma http_gets_app evs1 evs2 :
  http_gets (evs1 ++ evs2) = (http_gets evs1 ++ http_gets evs2)%list.
Proof. apply List.filter_app. Qed.

Lemma model_calls_events evs : model_calls evs = List.length (model_events evs).
Proof. reflexivity. Qed.

Section RunsFurther.

Context {World : Type} {env : Environment World}.

Implicit Types (st : state World) (messages : list message).

(** What a run of the loop adds to the trace and does to the cache. *)
Lemma loop_run_summary iteration messages st r st' :
  loop_run iteration messages st r st' ->
  exists evs,
    trace st' = (trace st ++ evs)%list
    /\ (List.length (tool_runs evs) <= model_calls evs)%nat
    /\ (List.length (http_gets evs) <= 2 * List.length (tool_runs evs))%nat
    /\ cache_step (file_cache st) (file_cache st') evs.
Proof.
  assert (Hpass : forall messages st x st1,
            iteration_body messages st = (x, st1) ->
            exists evs,
              trace st1 = (trace st ++ evs)%list
              /\ (List.length (tool_runs evs) <= model_calls evs)%nat
              /\ (List.length (http_gets evs)
                  <= 2 * List.length (tool_runs evs))%nat
              /\ cache_step (file_cache st) (file_cache st1) evs).
  { intros m s x s1 Hbody.
    destruct (iteration_body_summary s m)
      as (reply & evs & Ht & Hm & Hr & Hh & Hc).
    rewrite Hbody in Ht, Hc. cbn [snd] in Ht, Hc.
    exists ([ModelCall m reply] ++ evs)%list. split; [exact Ht|].
    rewrite tool_runs_app, http_gets_app, model_calls_app.
    rewrite (model_calls_events evs), Hm.
    split; [simpl; lia|]. split; [simpl; lia|].
    apply (cache_step_trans _ (file_cache s)); [apply cache_step_refl|exact Hc]. }
  induction 1 as [i m s Hi | i m s v s1 Hi Hbody | i m s e s1 Hi Hbody
                 | i m s m' s1 r s' Hi Hbody Hrun IH].
  - exists []. rewrite app_nil_r. split; [reflexivity|].
    split; [simpl; lia|]. split; [simpl; lia|]. apply cache_step_refl.
  - exact (Hpass _ _ _ _ Hbody).
  - exact (Hpass _ _ _ _ Hbody).
  - destruct (Hpass _ _ _ _ Hbody) as (evs1 & Ht1 & Hr1 & Hh1 & Hc1).
    destruct IH as (evs2 & Ht2 & Hr2 & Hh2 & Hc2).
    exists (evs1 ++ evs2)%list.
    split; [rewrite Ht2, Ht1, <- app_assoc; reflexivity|].
    rewrite tool_runs_app, http_gets_app, model_calls_app, !List.length_app.
    split; [lia|]. split; [lia|].
    exact (cache_step_trans _ _ _ _ _ Hc1 Hc2).
Qed.

(** X9.  An argument string that [json.loads] cannot decode ends the run:
    in any pass within the cap in which the first requested invocation has
    such arguments, the loop stops with [JSONDecodeError]; no tool body is
    entered, nothing is appended to the transcript or stored in the cache,
    and the model is not called again. *)
Theorem undecodable_arguments_abort fuel iteration st messages a w c rest :
  (iteration < max_iterations)%nat ->
  chat_completions_create messages (world st) = (ChatReturns a, w) ->
  tool_calls a = Some (c :: rest) ->
  json_loads (function_arguments c) = DecodeError ->
  agent_loop (S fuel) iteration messages st
  = Some (Raise JSONDecodeError,
          State (file_cache st) w
            (trace st ++ [ModelCall messages (ChatReturns a)])).
Proof.
  intros Hlt Hchat Hcalls Hdecode.
  cbn [agent_loop]. apply Nat.ltb_lt in Hlt. rewrite Hlt.
  rewrite iteration_body_eq, Hchat. cbv beta iota zeta.
  rewrite (handle_reply_tool _ messages a c rest Hcalls), Hdecode.
  reflexivity.
Qed.

(** X10.  A run that ends without an exception returns either the sentinel,
    every reply having requested a tool, or the text of the reply that
    requested none; that reply is the last one of the run, every reply
    before it requested a tool, and nothing happens after it. *)
Theorem run_agent_answer st user_message v st' :
  run_agent user_message st = Some (Ok v, st') ->
  (v = Some "Max iterations reached"
   /\ forallb requests_tool (model_events (events_since st st')) = true)
  \/ (exists earlier messages a,
        events_since st st'
        = (earlier ++ [ModelCall messages (ChatReturns a)])%list
        /\ forallb requests_tool (model_events earlier) = true
        /\ requests_tool (ModelCall messages (ChatReturns a)) = false
        /\ v = content a).
Proof.
  intros Hrun.
  apply agent_loop_run in Hrun.
  assert (Hgen : forall i m s r s',
            loop_run i m s r s' -> r = Ok v ->
            exists evs,
              trace s' = (trace s ++ evs)%list
              /\ ((v = Some "Max iterations reached"
                   /\ forallb requests_tool (model_events evs) = true)
                  \/ (exists earlier messages a,
                        evs = (earlier ++ [ModelCall messages (ChatReturns a)])%list
                        /\ forallb requests_tool (model_events earlier) = true
                        /\ requests_tool (ModelCall messages (ChatReturns a))
                           = false
                        /\ v = content a))).
  { induction 1 as [i m s Hi | i m s v0 s1 Hi Hbody | i m s e s1 Hi Hbody
                   | i m s m' s1 r s' Hi Hbody Hloop IH]; intros Hr.
    - injection Hr as <-. exists []. rewrite app_nil_r.
      split; [reflexivity|]. left. split; reflexivity.
    - injection Hr as ->.
      destruct (iteration_return_inv _ _ _ _ Hbody)
        as (a & w & Hchat & Hreq & Hv & ->).
      exists [ModelCall m (ChatReturns a)]. split; [reflexivity|].
      right. exists [], m, a. repeat split; assumption.
    - discriminate.
    - destruct (IH Hr) as (evs2 & Ht2 & Hcases).
      destruct (iteration_continue_inv _ _ _ _ Hbody)
        as (a & w & c & rest & result & Hchat & Hcalls & Hcall & _).
      destruct (iteration_body_summary s m)
        as (reply & evs1 & Ht1 & Hm1 & _).
      rewrite Hbody in Ht1. cbn [snd] in Ht1.
      assert (Hreply : reply = ChatReturns a).
      { pose proof (process_tool_call_summary
                      (State (file_cache s) w
                         (trace s ++ [ModelCall m (ChatReturns a)]))
                      (function_name c) (json_loads (function_arguments c)))
          as (evs & Ht & _).
        rewrite Hcall in Ht. cbn [snd trace] in Ht.
        rewrite Ht1, <- app_assoc in Ht.
        apply app_inv_head in Ht. injection Ht as Hreply _. exact Hreply. }
      subst reply.
      assert (Hreq : requests_tool (ModelCall m (ChatReturns a)) = true).
      { destruct a as [text calls]. simpl in Hcalls. subst calls. reflexivity. }
      exists ((ModelCall m (ChatReturns a) :: evs1) ++ evs2)%list.
      split; [rewrite Ht2, Ht1, <- app_assoc; reflexivity|].
      destruct Hcases as [[Hv Hall]|(earlier & msgs & a' & He & Hall & Hlast & Hv)].
      + left. split; [exact Hv|].
        change (ModelCall m (ChatReturns a) :: evs1)
          with ([ModelCall m (ChatReturns a)] ++ evs1)%list.
        rewrite !model_events_app, Hm1, !forallb_app, Hall.
        cbn [model_events List.filter is_model_call forallb].
        rewrite Hreq. reflexivity.
      + right. exists ((ModelCall m (ChatReturns a) :: evs1) ++ earlier)%list,
                 msgs, a'.
        split; [rewrite He, <- app_assoc; reflexivity|].
        split; [|split; assumption].
        change (ModelCall m (ChatReturns a) :: evs1)
          with ([ModelCall m (ChatReturns a)] ++ evs1)%list.
        rewrite !model_events_app, Hm1, !forallb_app, Hall.
        cbn [model_events List.filter is_model_call forallb].
        rewrite Hreq. reflexivity. }
  destruct (Hgen _ _ _ _ _ Hrun eq_refl) as (evs & Ht & Hcases).
  rewrite (events_since_app st st' evs Ht). exact Hcases.
Qed.

End RunsFurther.

Section TranscriptFurther.

Context {World : Type} {env : Environment World}.

Implicit Types (st : state World) (messages : list message).



(** X12.  A run enters at most one tool body per model call, so at most 10
    in all, and makes at most two HTTP requests per tool body entered, so at
    most 20 in all. *)
Theorem run_agent_resources st user_message :
  exists r st',
    run_agent user_message st = Some (r, st')
    /\ (List.length (tool_runs (events_since st st'))
        <= model_calls (events_since st st'))%nat
    /\ (List.length (tool_runs (events_since st st')) <= 10)%nat
    /\ (List.length (http_gets (events_since st st'))
        <= 2 * List.length (tool_runs (events_since st st')))%nat
    /\ (List.length (http_gets (events_since st st')) <= 20)%nat.
Proof.
  destruct (agent_loop_bounded max_iterations 0 (initial_messages user_message)
              st ltac:(lia)) as (r & st' & evs & Hrun & Ht & Hcalls & _).
  exists r, st'. split; [exact Hrun|].
  destruct (loop_run_summary _ _ _ _ _ (agent_loop_run _ _ _ _ _ _ Hrun))
    as (evs' & Ht' & Hr & Hh & _).
  rewrite Ht in Ht'. apply app_inv_head in Ht'. subst evs'.
  rewrite (events_since_app st st' evs Ht).
  unfold max_iterations in Hcalls. lia.
Qed.

(** X13.  Over a whole run the cache only grows from what was fetched: no
    entry that existed before the run is missing after it, and every entry
    after the run either was there before, unchanged, or is the body of a
    response with status 200 received during the run. *)
Theorem run_agent_cache_provenance st user_message :
  exists r st',
    run_agent user_message st = Some (r, st')
    /\ (forall p, is_Some (file_cache st !! p) -> is_Some (file_cache st' !! p))
    /\ (forall p body,
          file_cache st' !! p = Some body ->
          file_cache st !! p = Some body
          \/ exists url,
               In (HttpGet url (HttpReturns (HttpResponse 200 body)))
                  (events_since st st')).
Proof.
  destruct (run_agent_run st user_message) as (r & st' & Hrun & Hloop).
  exists r, st'. split; [exact Hrun|].
  destruct (loop_run_summary _ _ _ _ _ Hloop)
    as (evs & Ht & _ & _ & Hkeep & Hprov & _).
  rewrite (events_since_app st st' evs Ht). split; assumption.
Qed.

(** X14.  Over a whole run a cache entry changes only if a fetch of its path
    was run: for a path that no executed [fetch_github_file] names, the
    entry (or its absence) after the run is the one before. *)
Theorem run_agent_cache_frame st user_message p :
  exists r st',
    run_agent user_message st = Some (r, st')
    /\ ((forall owner repo,
           ~ In (ToolRun "fetch_github_file" [owner; repo; p])
                (events_since st st')) ->
        file_cache st' !! p = file_cache st !! p).
Proof.
  destruct (run_agent_run st user_message) as (r & st' & Hrun & Hloop).
  exists r, st'. split; [exact Hrun|].
  destruct (loop_run_summary _ _ _ _ _ Hloop)
    as (evs & Ht & _ & _ & _ & _ & Hframe).
  rewrite (events_since_app st st' evs Ht). apply Hframe.
Qed.

End TranscriptFurther.

(** ** Joining texts *)

Lemma split_app_sep sep a b :
  PyStr.split sep (a ++ String sep b)
  = (PyStr.split sep a ++ PyStr.split sep b)%list.
Proof.
  induction a as [|c a IH].
  - simpl. rewrite Ascii.eqb_refl. reflexivity.
  - change (String c a ++ String sep b) with (String c (a ++ String sep b)).
    cbn [PyStr.split]. rewrite IH.
    destruct (Ascii.eqb c sep); [reflexivity|].
    pose proof (split_not_nil sep a) as Hne.
    destruct (PyStr.split sep a) as [|p ps]; [congruence|reflexivity].
Qed.

Lemma startswith_app_sep sep token : forall x b,
  mem_char sep token = false ->
  PyStr.startswith token (x ++ String sep b) = PyStr.startswith token x.
Proof.
  induction token as [|t token IH]; intros x b Hfree; [reflexivity|].
  simpl in Hfree. apply orb_false_elim in Hfree as [Ht Hfree].
  destruct x as [|c x].
  - change (EmptyString ++ String sep b) with (String sep b).
    cbn [PyStr.startswith]. rewrite Ascii.eqb_sym, Ht. reflexivity.
  - change (String c x ++ String sep b) with (String c (x ++ String sep b)).
    cbn [PyStr.startswith]. rewrite (IH x b Hfree). reflexivity.
Qed.

Lemma occurrences_app_sep sep token a b :
  token <> EmptyString ->
  mem_char sep token = false ->
  occurrences token (a ++ String sep b)
  = (occurrences token a + occurrences token b)%nat.
Proof.
  intros Hne Hfree. induction a as [|c a IH].
  - change (EmptyString ++ String sep b) with (String sep b).
    cbn [occurrences].
    destruct token as [|t token]; [congruence|].
    simpl in Hfree. apply orb_false_elim in Hfree as [Ht _].
    cbn [PyStr.startswith]. rewrite Ascii.eqb_sym, Ht. reflexivity.
  - change (String c a ++ String sep b) with (String c (a ++ String sep b)).
    cbn [occurrences]. rewrite IH.
    change (String c (a ++ String sep b)) with (String c a ++ String sep b).
    rewrite (startswith_app_sep sep token (String c a) b Hfree). lia.
Qed.

Section JoinFurther.

Context {World : Type} {env : Environment World}.

Implicit Types (st : state World).

(** X15.  The metrics add up over lines: the analysis of two texts joined by
    a newline gives, for each of [total_lines], [code_lines] and
    [estimated_functions], the sum of the values for the two texts (so a
    final newline adds one blank line and nothing else). *)
Theorem analyze_joined_texts st1 st2 st3 p1 p2 p3 a b :
  file_cache st1 !! p1 = Some a ->
  file_cache st2 !! p2 = Some b ->
  file_cache st3 !! p3 = Some (a ++ String newline b) ->
  exists ta ca fa tb cb fb,
    fst (analyze_code_quality p1 st1) = Ok (metrics p1 ta ca fa)
    /\ fst (analyze_code_quality p2 st2) = Ok (metrics p2 tb cb fb)
    /\ fst (analyze_code_quality p3 st3)
       = Ok (metrics p3 (ta + tb) (ca + cb) (fa + fb)).
Proof.
  intros H1 H2 H3.
  rewrite !analyze_code_quality_eq, H1, H2, H3. cbn [fst].
  eexists _, _, _, _, _, _. split; [reflexivity|]. split; [reflexivity|].
  rewrite split_app_sep, List.filter_app, !List.length_app.
  rewrite !count_occurrences by reflexivity.
  rewrite !(occurrences_app_sep newline) by (discriminate || reflexivity).
  f_equal. f_equal; lia.
Qed.

End JoinFurther.

(** ** Concrete runs for the further properties *)

(** X2 after a successful fetch of [src/core.js]: the entry of another path
    is what it was. *)
Lemma fetch_changes_only_its_path_witness :
  "README.md" <> core_js
  /\ file_cache (snd (fetch_github_file "jquery" "jquery" core_js
                        (cached "README.md" one_liner on_master)))
     !! "README.md"
     = Some one_liner.
Proof.
  assert (Hne : "README.md" <> core_js) by discriminate.
  split; [exact Hne|].
  rewrite (fetch_changes_only_its_path
             (cached "README.md" one_liner on_master)
             "jquery" "jquery" core_js "README.md" Hne).
  reflexivity.
Defined.


(** X4 when [master] has the file. *)
Lemma fetch_then_analyze_witness :
  exists body,
    fetch_success core_js "let x = 1" = fetch_success core_js body
    /\ fst (analyze_code_quality core_js
              (snd (fetch_github_file "jquery" "jquery" core_js
                      (fresh on_master))))
       = Ok (metrics core_js
               (Z.of_nat (List.length (PyStr.split newline body)))
               (Z.of_nat (List.length
                  (List.filter is_code_line (PyStr.split newline body))))
               (PyStr.count "function " body + PyStr.count "def " body
                + PyStr.count "const " body + PyStr.count "let " body))
    /\ file_cache
         (snd (analyze_code_quality core_js
                 (snd (fetch_github_file "jquery" "jquery" core_js
                         (fresh on_master))))) !! core_js
       = Some body.
Proof.
  apply (fetch_then_analyze (fresh on_master) "jquery" "jquery" core_js).
  - reflexivity.
  - discriminate.
Defined.

(** X5 on the ten lines of [ten_lines], which hold nine newlines. *)
Lemma analyze_metrics_consistent_witness :
  exists total_lines code_lines functions,
    fst (analyze_code_quality core_js (cached core_js ten_lines offline))
    = Ok (metrics core_js total_lines code_lines functions)
    /\ total_lines = (1 + Z.of_nat (count_char newline ten_lines))%Z
    /\ (0 <= code_lines <= total_lines)%Z
    /\ (0 <= functions <= PyStr.len ten_lines)%Z.
Proof.
  apply (analyze_metrics_consistent (cached core_js ten_lines offline)
           core_js ten_lines).
  reflexivity.
Defined.

(** X6 for an indented statement followed by blanks. *)
Lemma code_line_ignores_indentation_witness :
  PyStr.strip ("    " ++ "return 1;" ++ "  ") = PyStr.strip "return 1;"
  /\ is_code_line ("    " ++ "return 1;" ++ "  ") = is_code_line "return 1;".
Proof.
  apply (code_line_ignores_indentation "    " "  " "return 1;"); reflexivity.
Defined.

Lemma path_only_dom :
  dom path_only = (list_to_set ["file_path"] : gset string).
Proof.
  unfold path_only. rewrite dom_insert_L, dom_empty_L. reflexivity.
Qed.

(** X7 for the analysis tool and the dict of its one parameter. *)
Lemma schema_matches_dispatcher_witness :
  List.map parameter_name
    (properties (ToolSchema "function" "analyze_code_quality"
       "Analyzes code that was already fetched and returns metrics."
       "object"
       [ParameterSchema "file_path" "string"
          "Path of the file to analyze (must have been fetched first)"]
       ["file_path"]))
  = ["file_path"]
  /\ exists args,
       Forall2 (fun k v => path_only !! k = Some v) ["file_path"] args
       /\ tool_runs
            (events_since (fresh offline)
               (snd (process_tool_call "analyze_code_quality" (Dict path_only)
                       (fresh offline))))
          = [ToolRun "analyze_code_quality" args].
Proof.
  apply (schema_matches_dispatcher (fresh offline)
           (ToolSchema "function" "analyze_code_quality"
              "Analyzes code that was already fetched and returns metrics."
              "object"
              [ParameterSchema "file_path" "string"
                 "Path of the file to analyze (must have been fetched first)"]
              ["file_path"])
           path_only).
  - left. reflexivity.
  - exact path_only_dom.
Defined.

(** X8 for a fetch requested with the path alone: the owner and the
    repository are missing. *)
Lemma wrong_arguments_raise_type_error_witness :
  process_tool_call "fetch_github_file" (Dict path_only) (fresh on_master)
  = (Raise TypeError, fresh on_master).
Proof.
  apply (wrong_arguments_raise_type_error (fresh on_master)
           (ToolSchema "function" "fetch_github_file"
              "Fetches a file from a GitHub repository. Provide owner, repo name, and file path."
              "object"
              [ParameterSchema "owner" "string" "GitHub username or org";
               ParameterSchema "repo" "string" "Repository name";
               ParameterSchema "file_path" "string" "Path to file in repo"]
              ["owner"; "repo"; "file_path"])
           (Dict path_only)).
  - right. left. reflexivity.
  - right. exists path_only. split; [reflexivity|].
    rewrite path_only_dom. cbn [required]. intros Heq.
    assert (Hin : "owner" ∈ (list_to_set ["file_path"] : gset string)).
    { rewrite Heq. apply elem_of_list_to_set. left. }
    apply elem_of_list_to_set in Hin.
    apply list_elem_of_In in Hin. simpl in Hin.
    destruct Hin as [Hin|[]]. discriminate.
Defined.

(** X9 in the first pass of a run. *)
Lemma undecodable_arguments_abort_witness :
  run_agent "Analyze src/core.js" (fresh garbled_request)
  = Some (Raise JSONDecodeError,
          State ∅ offline
            [ModelCall (initial_messages "Analyze src/core.js")
               (ChatReturns (AssistantMessage None (Some [garbled_call])))]).
Proof.
  apply (undecodable_arguments_abort 9 0 (fresh garbled_request)
           (initial_messages "Analyze src/core.js")
           (AssistantMessage None (Some [garbled_call])) offline
           garbled_call []).
  - unfold max_iterations. lia.
  - reflexivity.
  - reflexivity.
  - reflexivity.
Defined.

(** X10 for the run that fetches, analyses and answers. *)
Lemma run_agent_answer_witness :
  (Some "Score: 7/10" = Some "Max iterations reached"
   /\ forallb requests_tool
        (model_events (events_since (fresh three_passes) three_passes_end))
      = true)
  \/ (exists earlier messages a,
        events_since (fresh three_passes) three_passes_end
        = (earlier ++ [ModelCall messages (ChatReturns a)])%list
        /\ forallb requests_tool (model_events earlier) = true
        /\ requests_tool (ModelCall messages (ChatReturns a)) = false
        /\ Some "Score: 7/10" = content a).
Proof.
  apply (run_agent_answer (fresh three_passes) "Analyze src/core.js").
  vm_compute. reflexivity.
Defined.

(** X15 for a comment line joined to a line of code. *)
Lemma analyze_joined_texts_witness :
  exists ta ca fa tb cb fb,
    fst (analyze_code_quality "a.js" (cached "a.js" "// sizes" offline))
    = Ok (metrics "a.js" ta ca fa)
    /\ fst (analyze_code_quality "b.js" (cached "b.js" "let n = 1;" offline))
       = Ok (metrics "b.js" tb cb fb)
    /\ fst (analyze_code_quality core_js
              (cached core_js ("// sizes" ++ String newline "let n = 1;")
                 offline))
       = Ok (metrics core_js (ta + tb) (ca + cb) (fa + fb)).
Proof.
  apply (analyze_joined_texts
           (cached "a.js" "// sizes" offline)
           (cached "b.js" "let n = 1;" offline)
           (cached core_js ("// sizes" ++ String newline "let n = 1;") offline)
           "a.js" "b.js" core_js "// sizes" "let n = 1;"); reflexivity.
Defined.
